(** * HT16K33 LED matrix driver: a shallow embedding of
      [adafruit_ht16k33/ht16k33.py] and the properties of its
      frame buffer, pixel addressing and command protocol.

    Python integers are [Z]; a [bytearray] is a [list Z] whose stores are
    range- and bounds-checked as Python does; the driver object is a record
    threaded through a state-and-exception monad in which, as in Python, the
    mutations made before an exception is raised stay in place.  The I2C
    bus is an event log together with the outcomes of the coming writes. *)

From Stdlib Require Import ZArith List Lia Bool String DecimalString.
From stdpp Require Import base list numbers.

Local Open Scope Z_scope.

(** ** Module constants (source lines 37-40) *)

Definition _HT16K33_BLINK_CMD : Z := 0x80.
Definition _HT16K33_BLINK_DISPLAYON : Z := 0x01.
Definition _HT16K33_CMD_BRIGHTNESS : Z := 0xE0.
Definition _HT16K33_OSCILATOR_ON : Z := 0x21.

(** ** Python values and exceptions *)

(** The values a [color] argument takes: [None] (the default of [_pixel],
    meaning "read"), a boolean, or an integer such as the [0] that
    [__init__] passes to [fill]. *)
Inductive pyval : Type :=
| PyNone
| PyBool (b : bool)
| PyInt (n : Z).

(** Python truthiness, as tested by [if color] and [0xff if color else 0x00]. *)
Definition truthy (v : pyval) : bool :=
  match v with
  | PyNone => false
  | PyBool b => b
  | PyInt n => negb (n =? 0)
  end.

(** [ValueError] carries its message; [IndexError] is what a [bytearray]
    raises out of range; [OSError] is what the bus transport raises when a
    write is not acknowledged. *)
Inductive exn : Type :=
| ValueError (msg : string)
| IndexError
| OSError.

Inductive result (A : Type) : Type :=
| Ok (a : A)
| Raise (e : exn).
Arguments Ok {A} a.
Arguments Raise {A} e.

(** [str(n)] / ['{}'.format(n)] for an integer. *)
Definition str (n : Z) : string := NilZero.string_of_int (Z.to_int n).

(** ** bytearray *)

(** Python index normalisation: [-len <= i < 0] counts from the end. *)
Definition py_index (len : nat) (i : Z) : option nat :=
  if (0 <=? i) && (i <? Z.of_nat len) then Some (Z.to_nat i)
  else if (- Z.of_nat len <=? i) && (i <? 0) then Some (Z.to_nat (Z.of_nat len + i))
  else None.

(** [b[i]] *)
Definition bytearray_getitem (b : list Z) (i : Z) : result Z :=
  match py_index (length b) i with
  | Some n => match b !! n with Some v => Ok v | None => Raise IndexError end
  | None => Raise IndexError
  end.

(** [b[i] = v] *)
Definition bytearray_setitem (b : list Z) (i v : Z) : result (list Z) :=
  match py_index (length b) i with
  | Some n =>
      if (0 <=? v) && (v <? 256) then Ok (<[n:=v]> b)
      else Raise (ValueError "byte must be in range(0, 256)")
  | None => Raise IndexError
  end.

(** ** The bus *)

(** One scoped transaction ([with self.i2c_device: self.i2c_device.write(buf)]):
    the bytes handed to the transport and whether the device acknowledged. *)
Record txn : Type := Txn { payload : list Z; acked : bool }.

(** The device session: its bus address, the outcomes of the writes to come
    (an exhausted list means the device acknowledges) and the transactions
    attempted so far, oldest first. *)
Record I2CDevice : Type := mkI2CDevice {
  address : Z;
  acks : list bool;
  log : list txn
}.

(** ** The driver object *)

Record HT16K33 : Type := mkHT16K33 {
  i2c_device : I2CDevice;
  _temp : list Z;
  _buffer : list Z;
  _size : Z * Z;
  _auto_write : bool;
  _blink_rate : option Z;
  _brightness : option Z
}.

Definition with_i2c_device (d : I2CDevice) (s : HT16K33) : HT16K33 :=
  mkHT16K33 d (_temp s) (_buffer s) (_size s) (_auto_write s) (_blink_rate s) (_brightness s).
Definition with_temp (t : list Z) (s : HT16K33) : HT16K33 :=
  mkHT16K33 (i2c_device s) t (_buffer s) (_size s) (_auto_write s) (_blink_rate s) (_brightness s).
Definition with_buffer (b : list Z) (s : HT16K33) : HT16K33 :=
  mkHT16K33 (i2c_device s) (_temp s) b (_size s) (_auto_write s) (_blink_rate s) (_brightness s).
Definition with_auto_write (a : bool) (s : HT16K33) : HT16K33 :=
  mkHT16K33 (i2c_device s) (_temp s) (_buffer s) (_size s) a (_blink_rate s) (_brightness s).
Definition with_blink_rate (r : option Z) (s : HT16K33) : HT16K33 :=
  mkHT16K33 (i2c_device s) (_temp s) (_buffer s) (_size s) (_auto_write s) r (_brightness s).
Definition with_brightness (l : option Z) (s : HT16K33) : HT16K33 :=
  mkHT16K33 (i2c_device s) (_temp s) (_buffer s) (_size s) (_auto_write s) (_blink_rate s) l.

(** ** The method monad: state that survives exceptions *)

Definition M (A : Type) : Type := HT16K33 -> result A * HT16K33.

#[global] Instance M_ret : MRet M := fun A a s => (Ok a, s).
#[global] Instance M_bind : MBind M := fun A B f m s =>
  match m s with
  | (Ok a, s') => f a s'
  | (Raise e, s') => (Raise e, s')
  end.

Definition raise {A : Type} (e : exn) : M A := fun s => (Raise e, s).
Definition get : M HT16K33 := fun s => (Ok s, s).
Definition modify (f : HT16K33 -> HT16K33) : M unit := fun s => (Ok tt, f s).
Definition lift {A : Type} (r : result A) : M A := fun s => (r, s).

(** [for i in l: body(i)] *)
Fixpoint for_each (l : list Z) (body : Z -> M unit) : M unit :=
  match l with
  | [] => mret tt
  | i :: l' => body i ;; for_each l' body
  end.

(** [range(n)] *)
Definition range (n : nat) : list Z := seqZ 0 (Z.of_nat n).

(** ** The methods *)

(** [self.i2c_device.write(buf)] inside [with self.i2c_device:]. *)
Definition i2c_write (buf : list Z) : M unit := fun s =>
  let d := i2c_device s in
  let ok := hd true (acks d) in
  let d' := mkI2CDevice (address d) (tl (acks d)) (log d ++ [Txn buf ok]) in
  (if ok then Ok tt else Raise OSError, with_i2c_device d' s).

(** [self._buffer[i]] and [self._buffer[i] = v] *)
Definition buffer_load (i : Z) : M Z :=
  s ← get; lift (bytearray_getitem (_buffer s) i).
Definition buffer_store (i v : Z) : M unit :=
  s ← get; b ← lift (bytearray_setitem (_buffer s) i v); modify (with_buffer b).

(** [show] (lines 132-137) *)
Definition show : M unit :=
  s ← get; i2c_write (_buffer s).

(** [_write_cmd] (lines 165-168) *)
Definition _write_cmd (byte : Z) : M unit :=
  s ← get;
  t ← lift (bytearray_setitem (_temp s) 0 byte);
  modify (with_temp t);;
  s ← get; i2c_write (_temp s).

(** [fill] (lines 139-145) *)
Definition fill (color : pyval) : M unit :=
  let fill := if truthy color then 0xff else 0x00 in
  for_each (range 16) (fun i => buffer_store (i + 1) fill);;
  s ← get;
  if _auto_write s then show else mret tt.

(** The address and mask arithmetic of [_pixel] (lines 152-153). *)
Definition pixel_addr (x y : Z) : Z := 2 * y + x / 8.
Definition pixel_mask (x : Z) : Z := Z.shiftl 1 (x mod 8).

(** [_pixel] (lines 147-163): returns [Some b] for a read ([color is None])
    and [None], Python's implicit return, for a write. *)
Definition _pixel (x y : Z) (color : pyval) : M (option bool) :=
  s ← get;
  if negb ((0 <=? x) && (x <? (_size s).1)) then
    raise (ValueError ("X value out of range: 0-" ++ str ((_size s).1 - 1)))
  else if negb ((0 <=? y) && (y <? (_size s).2)) then
    raise (ValueError ("Y value out of range: 0-" ++ str ((_size s).2 - 1)))
  else
    let addr := pixel_addr x y in
    let mask := pixel_mask x in
    match color with
    | PyNone =>
        v ← buffer_load (addr + 1);
        mret (Some (negb (Z.land v mask =? 0)))
    | _ =>
        (if truthy color then
           v ← buffer_load (addr + 1); buffer_store (addr + 1) (Z.lor v mask)
         else
           v ← buffer_load (addr + 1); buffer_store (addr + 1) (Z.land v (Z.lnot mask)));;
        s ← get;
        if _auto_write s then show;; mret None else mret None
    end.

(** [__getitem__] and [__setitem__] (lines 124-130) *)
Definition __getitem__ (key : Z * Z) : M (option bool) :=
  let '(x, y) := key in _pixel x y PyNone.
Definition __setitem__ (key : Z * Z) (value : pyval) : M unit :=
  let '(x, y) := key in _pixel x y value;; mret tt.

(** The [blink_rate] setter (lines 101-109) *)
Definition blink_rate_set (rate : Z) : M unit :=
  if negb ((0 <=? rate) && (rate <=? 3)) then
    raise (ValueError "Blink rate must be an integer in the range: 0-3")
  else
    let rate := Z.land rate 0x03 in
    modify (with_blink_rate (Some rate));;
    _write_cmd (Z.lor (Z.lor _HT16K33_BLINK_CMD _HT16K33_BLINK_DISPLAYON)
                      (Z.shiftl rate 1)).

(** The [brightness] setter (lines 115-122) *)
Definition brightness_set (brightness : Z) : M unit :=
  if negb ((0 <=? brightness) && (brightness <=? 15)) then
    raise (ValueError "Brightness must be an integer in the range: 0-15")
  else
    let brightness := Z.land brightness 0x0F in
    modify (with_brightness (Some brightness));;
    _write_cmd (Z.lor _HT16K33_CMD_BRIGHTNESS brightness).

(** The [auto_write] setter (lines 89-91) *)
Definition auto_write_set (auto_write : bool) : M unit :=
  modify (with_auto_write auto_write).

(** [_set_buffer] and [_get_buffer] (lines 170-174) *)
Definition _set_buffer (i value : Z) : M unit := buffer_store (i + 1) value.
Definition _get_buffer (i : Z) : M Z := buffer_load (i + 1).

(** [__init__] (lines 72-83), run on the session [i2c_device.I2CDevice(i2c,
    address)] hands back.  When it raises, Python gives the caller no
    object; the state is returned all the same, for the bus log it holds. *)
Definition __init__ (dev : I2CDevice) (size : Z * Z) (auto_write : bool)
  : result unit * HT16K33 :=
  (fill (PyInt 0);;
   _write_cmd _HT16K33_OSCILATOR_ON;;
   modify (with_blink_rate None);;
   modify (with_brightness None);;
   blink_rate_set 0;;
   brightness_set 15)
  (mkHT16K33 dev (replicate 1 0) (replicate 17 0) size auto_write None None).

(** A fresh session at [address] whose coming writes have the outcomes [acks]. *)
Definition I2CDevice_new (address : Z) (acks : list bool) : I2CDevice :=
  mkI2CDevice address acks [].


(** The constructor's defaults: [address=0x70, size=(16,8), auto_write=True]. *)
Definition default_address : Z := 0x70.
Definition default_size : Z * Z := (16, 8).
Definition default_auto_write : bool := true.

(** The object the constructor returns with its defaults on a bus that
    acknowledges every write, and the one it returns for [size=(16, 9)]
    (see [fresh_display_init] and [oversized_display_init]). *)
Definition fresh_display : HT16K33 := Eval vm_compute in
  snd (__init__ (I2CDevice_new default_address []) default_size default_auto_write).
Definition oversized_display : HT16K33 := Eval vm_compute in
  snd (__init__ (I2CDevice_new default_address []) (16, 9) default_auto_write).

(** The default object on a bus that acknowledges the four writes of the
    construction and refuses the next one (see [flaky_display_init]). *)
Definition flaky_display : HT16K33 := Eval vm_compute in
  snd (__init__ (I2CDevice_new default_address [true; true; true; true; false])
                default_size default_auto_write).

(** ** Observations used by the properties *)

(** The representation invariant of the object: the two bytearrays keep
    their allocated lengths, every buffer byte is a byte, and byte 0 of
    the frame buffer is the display-data register address 0x00. *)
Definition wf (s : HT16K33) : Prop :=
  length (_temp s) = 1%nat /\
  length (_buffer s) = 17%nat /\
  _buffer s !! 0%nat = Some 0 /\
  Forall (fun b => 0 <= b < 256) (_buffer s).

(** The coordinate check of [_pixel]. *)
Definition valid_coord (s : HT16K33) (x y : Z) : Prop :=
  0 <= x < (_size s).1 /\ 0 <= y < (_size s).2.

(** Bit [j] of buffer byte [i] ([None] past the end of the buffer). *)
Definition buffer_bit (s : HT16K33) (i : nat) (j : Z) : option bool :=
  (fun v => Z.testbit v j) <$> (_buffer s !! i).

(** The byte a write stores: [v | mask] or [v & ~mask]. *)
Definition updated_byte (color : pyval) (x v : Z) : Z :=
  if truthy color then Z.lor v (pixel_mask x) else Z.land v (Z.lnot (pixel_mask x)).

(** The bus log of the object and the outcome of its next write. *)
Definition bus_log (s : HT16K33) : list txn := log (i2c_device s).
Definition next_ack (s : HT16K33) : bool := hd true (acks (i2c_device s)).

(** The next [n] writes on the bus are acknowledged. *)
Definition acknowledged (n : nat) (s : list bool) : bool := forallb id (take n s).

(** *** The chip's side of the wire

    What the chip holds is read off the bus log with the command byte
    format of the wire protocol: a single byte [0x80 | 0x01 | rate << 1]
    sets the blink rate, a single byte [0xE0 | level] the brightness; only
    acknowledged writes reach the chip, and the last one wins. *)
Definition blink_command (p : list Z) : option Z :=
  match p with
  | [b] => if Z.land b 0xF0 =? 0x80 then Some (Z.land (Z.shiftr b 1) 0x03) else None
  | _ => None
  end.

Definition brightness_command (p : list Z) : option Z :=
  match p with
  | [b] => if Z.land b 0xF0 =? 0xE0 then Some (Z.land b 0x0F) else None
  | _ => None
  end.

Definition chip_latch (decode : list Z -> option Z) (cur : option Z) (t : txn)
  : option Z :=
  if acked t then
    match decode (payload t) with Some v => Some v | None => cur end
  else cur.

Definition chip_register (decode : list Z -> option Z) (l : list txn) : option Z :=
  fold_left (chip_latch decode) l None.

Definition chip_blink_rate (s : HT16K33) : option Z :=
  chip_register blink_command (bus_log s).
Definition chip_brightness (s : HT16K33) : option Z :=
  chip_register brightness_command (bus_log s).

(** The cached settings mirror the chip. *)
Definition cache_synced (s : HT16K33) : Prop :=
  _blink_rate s = chip_blink_rate s /\ _brightness s = chip_brightness s.

(** The two bytearrays have their allocated lengths. *)
Definition shape (s : HT16K33) : Prop :=
  length (_temp s) = 1%nat /\ length (_buffer s) = 17%nat.

(** A step that leaves the cached settings and the scratch byte alone,
    keeps the buffer's length, and puts on the bus at most one frame, the
    buffer itself. *)
Definition quiet (s s' : HT16K33) : Prop :=
  _blink_rate s' = _blink_rate s /\ _brightness s' = _brightness s /\
  _temp s' = _temp s /\ length (_buffer s') = length (_buffer s) /\
  (bus_log s' = bus_log s \/
   exists a, bus_log s' = bus_log s ++ [Txn (_buffer s') a]).

(** *** Operations on a constructed object *)

Inductive op : Type :=
| Set_auto_write (auto_write : bool)
| Set_blink_rate (rate : Z)
| Set_brightness (brightness : Z)
| Getitem (key : Z * Z)
| Setitem (key : Z * Z) (value : pyval)
| Show
| Fill (color : pyval)
| Set_buffer (i value : Z)
| Get_buffer (i : Z).

(** The exception a call ended with, if any, and the object afterwards. *)
Definition outcome {A : Type} (r : result A * HT16K33) : option exn * HT16K33 :=
  (match fst r with Ok _ => None | Raise e => Some e end, snd r).

Definition run_op (o : op) (s : HT16K33) : option exn * HT16K33 :=
  match o with
  | Set_auto_write a => outcome (auto_write_set a s)
  | Set_blink_rate r => outcome (blink_rate_set r s)
  | Set_brightness l => outcome (brightness_set l s)
  | Getitem k => outcome (__getitem__ k s)
  | Setitem k v => outcome (__setitem__ k v s)
  | Show => outcome (show s)
  | Fill c => outcome (fill c s)
  | Set_buffer i v => outcome (_set_buffer i v s)
  | Get_buffer i => outcome (_get_buffer i s)
  end.

(** The low-level accessor is for data bytes 0..15. *)
Definition in_contract (o : op) : Prop :=
  match o with
  | Set_buffer i _ => 0 <= i <= 15
  | _ => True
  end.

(** The objects a caller can hold: what a construction returned, followed
    by any operations. *)
Inductive reachable : HT16K33 -> Prop :=
| reachable_init dev size aw s :
    __init__ dev size aw = (Ok tt, s) -> reachable s
| reachable_step o s :
    reachable s -> in_contract o -> reachable (snd (run_op o s)).

Definition is_setter (o : op) : bool :=
  match o with
  | Set_blink_rate _ | Set_brightness _ => true
  | _ => false
  end.

(** *** Runs, construction plans and the wire format *)

(** A sequence of operations, run in order whatever each one returns. *)
Definition run_ops (ops : list op) (s : HT16K33) : HT16K33 :=
  fold_left (fun s o => snd (run_op o s)) ops s.

(** The payloads [__init__] writes, in order: the cleared frame when
    [auto_write] is on, then oscillator on, blink rate 0, brightness 15. *)
Definition init_frames (auto_write : bool) : list (list Z) :=
  (if auto_write then [replicate 17 0] else []) ++ [[0x21]; [0x81]; [0xEF]].

(** The number of writes acknowledged before the first refused one. *)
Fixpoint refused_at (outcomes : list bool) : nat :=
  match outcomes with
  | true :: l => S (refused_at l)
  | _ => 0%nat
  end.

(** The payloads the driver is meant to send: a 17-byte frame that opens
    with the display-data address 0x00, or one of its command bytes. *)
Definition wire_payload (p : list Z) : Prop :=
  (length p = 17%nat /\ p !! 0%nat = Some 0 /\ Forall (fun b => 0 <= b < 256) p) \/
  p = [0x21] \/
  (exists rate, 0 <= rate <= 3 /\ p = [Z.lor (Z.lor 0x80 0x01) (Z.shiftl rate 1)]) \/
  (exists level, 0 <= level <= 15 /\ p = [Z.lor 0xE0 level]).

Definition traffic_ok (l : list txn) : Prop :=
  Forall (fun t => wire_payload (payload t)) l.

(** The object constructed with [size=(24, 8)] (see [wide_display_init]). *)
Definition wide_display : HT16K33 := Eval vm_compute in
  snd (__init__ (I2CDevice_new default_address []) (24, 8) default_auto_write).

(** ** Bytes and bit masks *)

Lemma byte_land v : 0 <= v < 256 <-> Z.land v 255 = v.
Proof.
  change 255 with (Z.ones 8). rewrite Z.land_ones by lia.
  change (2 ^ 8) with 256. split.
  - intros H. apply Z.mod_small. exact H.
  - intros <-. apply Z.mod_pos_bound. lia.
Qed.

Lemma pixel_mask_pow2 x : pixel_mask x = 2 ^ (x mod 8).
Proof. unfold pixel_mask. apply Z.shiftl_1_l. Qed.

Lemma bit_pos_range x : 0 <= x mod 8 < 8.
Proof. apply Z.mod_pos_bound. lia. Qed.

Lemma pixel_mask_byte x : 0 <= pixel_mask x < 256.
Proof.
  rewrite pixel_mask_pow2. pose proof (bit_pos_range x) as Hk. split.
  - apply Z.pow_nonneg. lia.
  - apply Z.le_lt_trans with (2 ^ 7); [apply Z.pow_le_mono_r; lia | reflexivity].
Qed.

Lemma set_bit_byte v x : 0 <= v < 256 -> 0 <= Z.lor v (pixel_mask x) < 256.
Proof.
  intros Hv. apply byte_land. rewrite Z.land_lor_distr_l.
  f_equal; apply byte_land; [exact Hv | apply pixel_mask_byte].
Qed.

Lemma clear_bit_byte v x : 0 <= v < 256 -> 0 <= Z.land v (Z.lnot (pixel_mask x)) < 256.
Proof.
  intros Hv. apply byte_land.
  rewrite <- Z.land_assoc, (Z.land_comm (Z.lnot _)), Z.land_assoc.
  f_equal. apply byte_land. exact Hv.
Qed.

(** [bool(v & mask)] reads bit [x mod 8] of [v]. *)
Lemma test_mask v x :
  negb (Z.land v (pixel_mask x) =? 0) = Z.testbit v (x mod 8).
Proof.
  rewrite pixel_mask_pow2. pose proof (bit_pos_range x) as Hk.
  destruct (Z.testbit v (x mod 8)) eqn:Hb.
  - apply negb_true_iff, Z.eqb_neq. intros H0.
    assert (Z.testbit (Z.land v (2 ^ (x mod 8))) (x mod 8) = false) as Hf
      by (rewrite H0; apply Z.bits_0).
    rewrite Z.land_spec, Hb, Z.pow2_bits_true in Hf by lia. discriminate.
  - apply negb_false_iff, Z.eqb_eq, Z.bits_inj'. intros n Hn.
    rewrite Z.land_spec, Z.bits_0, Z.pow2_bits_eqb by lia.
    destruct (Z.eqb_spec (x mod 8) n) as [<-|]; [rewrite Hb|]; auto using andb_false_r.
Qed.

Lemma set_bit_spec v x j :
  Z.testbit (Z.lor v (pixel_mask x)) j = Z.testbit v j || (x mod 8 =? j).
Proof.
  pose proof (bit_pos_range x) as Hk.
  rewrite pixel_mask_pow2, Z.lor_spec. f_equal.
  destruct (Z.neg_nonneg_cases j) as [Hj|Hj].
  - rewrite Z.testbit_neg_r by lia. symmetry. apply Z.eqb_neq. lia.
  - apply Z.pow2_bits_eqb. lia.
Qed.

Lemma clear_bit_spec v x j :
  Z.testbit (Z.land v (Z.lnot (pixel_mask x))) j = Z.testbit v j && negb (x mod 8 =? j).
Proof.
  pose proof (bit_pos_range x) as Hk.
  destruct (Z.neg_nonneg_cases j) as [Hj|Hj].
  - rewrite !Z.testbit_neg_r by lia. reflexivity.
  - rewrite pixel_mask_pow2, Z.land_spec, Z.lnot_spec, Z.pow2_bits_eqb by lia.
    reflexivity.
Qed.

(** ** Running the bytearray operations *)

Lemma py_index_nonneg len i :
  0 <= i < Z.of_nat len -> py_index len i = Some (Z.to_nat i).
Proof.
  intros [H0 H1]. unfold py_index.
  apply Z.leb_le in H0. apply Z.ltb_lt in H1. rewrite H0, H1. reflexivity.
Qed.

Lemma py_index_beyond len i : Z.of_nat len <= i -> py_index len i = None.
Proof.
  intros H. unfold py_index.
  replace (i <? Z.of_nat len) with false by (symmetry; apply Z.ltb_ge; lia).
  replace (i <? 0) with false by (symmetry; apply Z.ltb_ge; lia).
  rewrite !andb_false_r. reflexivity.
Qed.

Lemma getitem_in (b : list Z) i v :
  0 <= i -> b !! Z.to_nat i = Some v -> bytearray_getitem b i = Ok v.
Proof.
  intros Hi Hv. unfold bytearray_getitem.
  apply lookup_lt_Some in Hv as Hlt.
  rewrite py_index_nonneg by lia. rewrite Hv. reflexivity.
Qed.

Lemma getitem_beyond (b : list Z) i :
  Z.of_nat (length b) <= i -> bytearray_getitem b i = Raise IndexError.
Proof. intros H. unfold bytearray_getitem. rewrite py_index_beyond by lia. reflexivity. Qed.

Lemma setitem_in (b : list Z) i v :
  0 <= i < Z.of_nat (length b) -> 0 <= v < 256 ->
  bytearray_setitem b i v = Ok (<[Z.to_nat i:=v]> b).
Proof.
  intros Hi [H0 H1]. unfold bytearray_setitem. rewrite py_index_nonneg by lia.
  apply Z.leb_le in H0. apply Z.ltb_lt in H1. rewrite H0, H1. reflexivity.
Qed.

Lemma setitem_beyond (b : list Z) i v :
  Z.of_nat (length b) <= i -> bytearray_setitem b i v = Raise IndexError.
Proof. intros H. unfold bytearray_setitem. rewrite py_index_beyond by lia. reflexivity. Qed.

(** A store either raises or replaces one element. *)
Lemma setitem_cases (b : list Z) i v :
  0 <= i ->
  (exists e, bytearray_setitem b i v = Raise e) \/
  bytearray_setitem b i v = Ok (<[Z.to_nat i:=v]> b).
Proof.
  intros Hi. destruct (Z.lt_ge_cases i (Z.of_nat (length b))) as [Hlt|Hge].
  - unfold bytearray_setitem. rewrite py_index_nonneg by lia.
    destruct ((0 <=? v) && (v <? 256)); eauto.
  - left. rewrite setitem_beyond by lia. eauto.
Qed.

(** ** Running the methods *)

Lemma buffer_load_run i s :
  buffer_load i s = (bytearray_getitem (_buffer s) i, s).
Proof. reflexivity. Qed.

Lemma buffer_store_run i v s :
  buffer_store i v s =
  match bytearray_setitem (_buffer s) i v with
  | Ok b => (Ok tt, with_buffer b s)
  | Raise e => (Raise e, s)
  end.
Proof.
  unfold buffer_store, mbind, M_bind, get, lift, modify.
  destruct (bytearray_setitem (_buffer s) i v); reflexivity.
Qed.

Lemma show_run s :
  show s = (if next_ack s then Ok tt else Raise OSError,
            with_i2c_device
              (mkI2CDevice (address (i2c_device s)) (tl (acks (i2c_device s)))
                           (bus_log s ++ [Txn (_buffer s) (next_ack s)])) s).
Proof. reflexivity. Qed.

Lemma pixel_x_out x y c s :
  ~ 0 <= x < (_size s).1 ->
  _pixel x y c s =
  (Raise (ValueError ("X value out of range: 0-" ++ str ((_size s).1 - 1))), s).
Proof.
  intros Hx. unfold _pixel, mbind, M_bind, get. cbv beta iota.
  replace ((0 <=? x) && (x <? (_size s).1)) with false; [reflexivity|].
  symmetry. apply andb_false_iff. rewrite Z.leb_gt, Z.ltb_ge. lia.
Qed.

Lemma pixel_y_out x y c s :
  0 <= x < (_size s).1 -> ~ 0 <= y < (_size s).2 ->
  _pixel x y c s =
  (Raise (ValueError ("Y value out of range: 0-" ++ str ((_size s).2 - 1))), s).
Proof.
  intros [Hx0 Hx1] Hy. unfold _pixel, mbind, M_bind, get. cbv beta iota.
  apply Z.leb_le in Hx0. apply Z.ltb_lt in Hx1. rewrite Hx0, Hx1. cbn [andb negb].
  replace ((0 <=? y) && (y <? (_size s).2)) with false; [reflexivity|].
  symmetry. apply andb_false_iff. rewrite Z.leb_gt, Z.ltb_ge. lia.
Qed.

Lemma pixel_checks_pass {A} x y s (e1 e2 k : M A) :
  valid_coord s x y ->
  (if negb ((0 <=? x) && (x <? (_size s).1)) then e1
   else if negb ((0 <=? y) && (y <? (_size s).2)) then e2 else k) = k.
Proof.
  intros [[Hx0 Hx1] [Hy0 Hy1]].
  apply Z.leb_le in Hx0, Hy0. apply Z.ltb_lt in Hx1, Hy1.
  rewrite Hx0, Hx1, Hy0, Hy1. reflexivity.
Qed.

(** A read returns bit [x mod 8] of buffer byte [addr + 1]. *)
Lemma pixel_read x y s :
  valid_coord s x y ->
  _pixel x y PyNone s =
  match bytearray_getitem (_buffer s) (pixel_addr x y + 1) with
  | Ok v => (Ok (Some (Z.testbit v (x mod 8))), s)
  | Raise e => (Raise e, s)
  end.
Proof.
  intros Hv. unfold _pixel, mbind, M_bind, get. cbv beta iota.
  rewrite pixel_checks_pass by exact Hv. cbv zeta.
  rewrite buffer_load_run.
  destruct (bytearray_getitem _ _) as [v|e]; [|reflexivity].
  unfold mret, M_ret. rewrite test_mask. reflexivity.
Qed.

Lemma pixel_write x y c s :
  valid_coord s x y -> c <> PyNone ->
  _pixel x y c s =
  match bytearray_getitem (_buffer s) (pixel_addr x y + 1) with
  | Raise e => (Raise e, s)
  | Ok v =>
      match bytearray_setitem (_buffer s) (pixel_addr x y + 1) (updated_byte c x v) with
      | Raise e => (Raise e, s)
      | Ok b =>
          if _auto_write s then
            (if next_ack s then Ok None else Raise OSError, snd (show (with_buffer b s)))
          else (Ok None, with_buffer b s)
      end
  end.
Proof.
  intros Hv Hc. unfold _pixel, mbind at 1, M_bind at 1, get. cbv beta iota.
  rewrite pixel_checks_pass by exact Hv. cbv zeta.
  destruct c as [|b|n]; [contradiction| |].
  all: unfold updated_byte; destruct (truthy _).
  all: unfold mbind, M_bind, get; rewrite buffer_load_run.
  all: destruct (bytearray_getitem _ _) as [v|e]; [|reflexivity].
  all: rewrite buffer_store_run.
  all: destruct (bytearray_setitem _ _ _) as [b'|e]; [|reflexivity].
  all: change (_auto_write (with_buffer b' s)) with (_auto_write s).
  all: destruct (_auto_write s); [|reflexivity].
  all: rewrite show_run; unfold next_ack; cbn.
  all: destruct (hd true _); reflexivity.
Qed.

Lemma getitem_inv (b : list Z) i v :
  0 <= i -> bytearray_getitem b i = Ok v -> b !! Z.to_nat i = Some v.
Proof.
  intros Hi. destruct (Z.lt_ge_cases i (Z.of_nat (length b))) as [Hlt|Hge].
  - unfold bytearray_getitem. rewrite py_index_nonneg by lia.
    destruct (b !! Z.to_nat i); congruence.
  - rewrite getitem_beyond by lia. discriminate.
Qed.

Lemma pixel_addr_nonneg x y : 0 <= x -> 0 <= y -> 0 <= pixel_addr x y.
Proof.
  intros Hx Hy. unfold pixel_addr.
  pose proof (Z.div_pos x 8 Hx ltac:(lia)). lia.
Qed.

(** Within a 16 x 8 display every valid coordinate addresses one of the
    16 data bytes. *)
Lemma pixel_addr_fits w h x y :
  w <= 16 -> h <= 8 -> 0 <= x < w -> 0 <= y < h -> 0 <= pixel_addr x y <= 15.
Proof.
  intros Hw Hh Hx Hy. split; [apply pixel_addr_nonneg; lia|].
  unfold pixel_addr.
  assert (x / 8 < 2) by (apply Z.div_lt_upper_bound; lia). lia.
Qed.

(** [show] touches nothing but the bus. *)
Lemma show_frame s :
  _buffer (snd (show s)) = _buffer s /\ _temp (snd (show s)) = _temp s /\
  _size (snd (show s)) = _size s /\ _auto_write (snd (show s)) = _auto_write s /\
  _blink_rate (snd (show s)) = _blink_rate s /\
  _brightness (snd (show s)) = _brightness s.
Proof. repeat split. Qed.

(** The write of [_pixel] on a well-formed object, address inside the buffer. *)
Lemma pixel_write_in x y c s :
  wf s -> valid_coord s x y -> pixel_addr x y <= 15 -> c <> PyNone ->
  exists v,
    _buffer s !! Z.to_nat (pixel_addr x y + 1) = Some v /\ 0 <= v < 256 /\
    let b := <[Z.to_nat (pixel_addr x y + 1) := updated_byte c x v]> (_buffer s) in
    _pixel x y c s =
    if _auto_write s then
      (if next_ack s then Ok None else Raise OSError, snd (show (with_buffer b s)))
    else (Ok None, with_buffer b s).
Proof.
  intros (Ht & Hlen & H0 & Hbytes) Hv Ha Hc.
  pose proof Hv as [[Hx0 _] [Hy0 _]].
  pose proof (pixel_addr_nonneg x y Hx0 Hy0) as Hnn.
  destruct (lookup_lt_is_Some_2 (_buffer s) (Z.to_nat (pixel_addr x y + 1)))
    as [v Hlk]; [lia|].
  exists v. split; [exact Hlk|].
  assert (0 <= v < 256) as Hb by (eapply (Forall_lookup_1 _ _ _ _ Hbytes Hlk)).
  split; [exact Hb|]. cbv zeta.
  rewrite pixel_write by assumption.
  rewrite (getitem_in _ _ v) by (lia || assumption).
  rewrite setitem_in; [reflexivity|lia|].
  unfold updated_byte. destruct (truthy c);
    [apply set_bit_byte | apply clear_bit_byte]; exact Hb.
Qed.

Lemma updated_byte_bit c x v :
  Z.testbit (updated_byte c x v) (x mod 8) = truthy c.
Proof.
  unfold updated_byte. destruct (truthy c).
  - rewrite set_bit_spec, Z.eqb_refl. apply orb_true_r.
  - rewrite clear_bit_spec, Z.eqb_refl. apply andb_false_r.
Qed.

Lemma updated_byte_other c x v j :
  j <> x mod 8 -> Z.testbit (updated_byte c x v) j = Z.testbit v j.
Proof.
  intros Hj. unfold updated_byte.
  assert ((x mod 8 =? j) = false) as E by (apply Z.eqb_neq; lia).
  destruct (truthy c).
  - rewrite set_bit_spec, E. apply orb_false_r.
  - rewrite clear_bit_spec, E. apply andb_true_r.
Qed.

(** [fill] on a 17-byte buffer. *)
Lemma fill_run c s :
  length (_buffer s) = 17%nat ->
  fill c s =
  let s1 := with_buffer (hd 0 (_buffer s) ::
                         replicate 16 (if truthy c then 0xff else 0x00)) s in
  if _auto_write s then show s1 else (Ok tt, s1).
Proof.
  intros Hlen. destruct s as [dev tmp buf sz aw br bn]. cbn in Hlen.
  do 17 (destruct buf as [|? buf]; [discriminate|]).
  destruct buf; [|discriminate].
  unfold fill. destruct (truthy c), aw; reflexivity.
Qed.

(** Closed side conditions on concrete objects are settled by evaluation. *)
Ltac by_evaluation := vm_compute; repeat split; easy.
Ltac wf_by_evaluation :=
  unfold wf; repeat split; [by_evaluation..|];
  match goal with
  | |- Forall _ ?b =>
      let b' := eval vm_compute in b in
      change (Forall (fun v => 0 <= v < 256) b'); repeat constructor; lia
  end.

Lemma fresh_display_init :
  __init__ (I2CDevice_new default_address []) default_size default_auto_write
  = (Ok tt, fresh_display).
Proof. vm_compute. reflexivity. Qed.

Lemma flaky_display_init :
  __init__ (I2CDevice_new default_address [true; true; true; true; false])
           default_size default_auto_write
  = (Ok tt, flaky_display).
Proof. vm_compute. reflexivity. Qed.

Lemma oversized_display_init :
  __init__ (I2CDevice_new default_address []) (16, 9) default_auto_write
  = (Ok tt, oversized_display).
Proof. vm_compute. reflexivity. Qed.

(** ** Pixel round trip *)

(** C1, as stated, fails: with [size = (16, 9)] the coordinate (0, 8) passes
    both range checks, its address 16 lies past the 16 data bytes, and both
    the write and the read raise [IndexError]. *)
Lemma pixel_roundtrip_fails_past_buffer :
  let s := oversized_display in
  valid_coord s 0 8 /\
  fst (_pixel 0 8 (PyBool true) s) = Raise IndexError /\
  fst (_pixel 0 8 PyNone (snd (_pixel 0 8 (PyBool true) s))) = Raise IndexError.
Proof.
  cbv zeta. split; [|split]; [|vm_compute; reflexivity..].
  by_evaluation.
Qed.

(** C1 (amended): on a well-formed object, for every coordinate that passes
    the range checks and whose address [2*y + x/8] is at most 15, writing
    color [c] and then reading the pixel returns [c].  The write itself
    returns normally unless auto-write is on and the bus refuses the frame;
    the bit is stored in the buffer in either case. *)
Theorem pixel_roundtrip s x y (c : bool) :
  wf s -> valid_coord s x y -> pixel_addr x y <= 15 ->
  let r := _pixel x y (PyBool c) s in
  fst r = (if _auto_write s && negb (next_ack s) then Raise OSError else Ok None) /\
  _pixel x y PyNone (snd r) = (Ok (Some c), snd r).
Proof.
  intros Hwf Hv Ha.
  destruct (pixel_write_in x y (PyBool c) s Hwf Hv Ha ltac:(discriminate))
    as (v & Hlk & Hb & Hrun).
  cbv zeta in *. rewrite Hrun. clear Hrun.
  pose proof Hv as [[Hx0 _] [Hy0 _]].
  pose proof (pixel_addr_nonneg x y Hx0 Hy0) as Hnn.
  apply lookup_lt_Some in Hlk as Hlt.
  set (b := <[_ := _]> (_buffer s)).
  assert (forall t, _buffer t = b -> _size t = _size s ->
                    _pixel x y PyNone t = (Ok (Some c), t)) as Hread.
  { intros t Hbt Hst. rewrite pixel_read by (unfold valid_coord; rewrite Hst; exact Hv).
    rewrite Hbt.
    rewrite (getitem_in _ _ (updated_byte (PyBool c) x v)).
    - rewrite updated_byte_bit. reflexivity.
    - lia.
    - subst b. apply list_lookup_insert_eq. exact Hlt. }
  destruct (_auto_write s); cbn [andb fst snd].
  - split; [destruct (next_ack s); reflexivity|]. apply Hread; reflexivity.
  - split; [reflexivity|]. apply Hread; reflexivity.
Qed.

Lemma pixel_roundtrip_witness :
  let s := fresh_display in
  _pixel 11 5 PyNone (snd (_pixel 11 5 (PyBool true) s))
  = (Ok (Some true), snd (_pixel 11 5 (PyBool true) s)).
Proof.
  cbv zeta.
  refine (proj2 (pixel_roundtrip _ 11 5 true _ _ _)).
  - wf_by_evaluation.
  - by_evaluation.
  - by_evaluation.
Defined.

(** ** Frame of a pixel write *)

(** C10: for every coordinate that passes the range checks and every color
    argument, [_pixel] leaves every bit of every buffer byte as it was,
    except possibly bit [x mod 8] of buffer byte [addr + 1] (data byte
    [addr = 2*y + x/8]); the buffer keeps its length.  This holds whatever
    [auto_write] is and whatever the bus answers. *)
Theorem pixel_write_frame s x y (c : pyval) :
  valid_coord s x y ->
  forall (i : nat) (j : Z),
    ~ (i = Z.to_nat (pixel_addr x y + 1) /\ j = x mod 8) ->
    buffer_bit (snd (_pixel x y c s)) i j = buffer_bit s i j.
Proof.
  intros Hv i j Hij.
  pose proof Hv as [[Hx0 _] [Hy0 _]].
  pose proof (pixel_addr_nonneg x y Hx0 Hy0) as Hnn.
  assert (c = PyNone \/ c <> PyNone) as [->|Hc]
    by (destruct c; [left; reflexivity | right; discriminate..]).
  { rewrite pixel_read by exact Hv. destruct (bytearray_getitem _ _); reflexivity. }
  rewrite pixel_write by assumption.
  destruct (bytearray_getitem _ _) as [v|e] eqn:Hget; [|reflexivity].
  apply getitem_inv in Hget; [|lia].
  destruct (setitem_cases (_buffer s) (pixel_addr x y + 1) (updated_byte c x v))
    as [[e He]|Hset]; [lia|rewrite He; reflexivity|].
  rewrite Hset.
  assert (buffer_bit
            (with_buffer (<[Z.to_nat (pixel_addr x y + 1):=updated_byte c x v]>
                            (_buffer s)) s) i j = buffer_bit s i j) as Hbit.
  { unfold buffer_bit. cbn [_buffer with_buffer].
    destruct (decide (i = Z.to_nat (pixel_addr x y + 1))) as [->|Hne].
    - rewrite list_lookup_insert_eq by (eapply lookup_lt_Some; exact Hget).
      rewrite Hget. cbn. f_equal. apply updated_byte_other. tauto.
    - rewrite list_lookup_insert_ne by congruence. reflexivity. }
  destruct (_auto_write s); exact Hbit.
Qed.

Lemma pixel_write_frame_witness :
  let s := fresh_display in
  buffer_bit (snd (_pixel 11 5 (PyBool true) s)) 12 2 = buffer_bit s 12 2.
Proof.
  cbv zeta. apply pixel_write_frame.
  - by_evaluation.
  - vm_compute. intros [_ H]. discriminate H.
Defined.

(** ** Addressing at the default size *)

(** C2: at the default size (16, 8), every coordinate in range has its
    address [2*y + x/8] in [0, 15] and its mask is the single bit at
    position [x mod 8], a position in [0, 7]; two distinct coordinates in
    range with the same address have different bit positions. *)
Theorem default_size_addressing x y :
  0 <= x < default_size.1 -> 0 <= y < default_size.2 ->
  0 <= pixel_addr x y <= 15 /\
  pixel_addr x y = 2 * y + x / 8 /\
  (pixel_mask x = 2 ^ (x mod 8) /\ 0 <= x mod 8 < 8) /\
  forall x' y',
    0 <= x' < default_size.1 -> 0 <= y' < default_size.2 ->
    (x', y') <> (x, y) ->
    pixel_addr x' y' = pixel_addr x y ->
    x' mod 8 <> x mod 8.
Proof.
  cbn [default_size fst snd]. intros Hx Hy.
  split; [apply (pixel_addr_fits 16 8); lia|].
  split; [reflexivity|].
  split; [split; [apply pixel_mask_pow2 | apply bit_pos_range]|].
  intros x' y' Hx' Hy' Hne Haddr Hbit. apply Hne. unfold pixel_addr in Haddr.
  pose proof (Z.div_mod x 8 ltac:(lia)) as Ex.
  pose proof (Z.div_mod x' 8 ltac:(lia)) as Ex'.
  pose proof (bit_pos_range x) as Rx.
  pose proof (bit_pos_range x') as Rx'.
  assert (x / 8 = x' / 8 /\ y = y') as [Eq Ey] by lia.
  f_equal; lia.
Qed.

Lemma default_size_addressing_witness :
  0 <= pixel_addr 11 5 <= 15 /\ pixel_mask 11 = 2 ^ (11 mod 8) /\
  8 mod 8 <> 11 mod 8.
Proof.
  destruct (default_size_addressing 11 5) as (Ha & _ & [Hm _] & Hinj);
    [by_evaluation..|].
  split; [exact Ha|]. split; [exact Hm|].
  apply (Hinj 8 5); by_evaluation.
Defined.

(** ** fill *)

(** C3, as stated, fails: with [size = (16, 9)] the coordinate (0, 8) is in
    range, and after [fill(True)] reading it raises [IndexError]. *)
Lemma fill_then_read_fails_past_buffer :
  let s := oversized_display in
  let s' := snd (fill (PyBool true) s) in
  valid_coord s' 0 8 /\ fst (_pixel 0 8 PyNone s') = Raise IndexError.
Proof. by_evaluation. Qed.

(** C3 (amended): on a well-formed object [fill(color)] sets the 16 data
    bytes (buffer bytes 1..16) to 0xFF when [color] is truthy and to 0x00
    otherwise, and leaves byte 0 as it was; afterwards every coordinate in
    range whose address [2*y + x/8] is at most 15 reads as the truth value of
    [color].  The buffer is filled whether or not the auto-write sync
    succeeds on the bus. *)
Theorem fill_then_read s (color : pyval) :
  wf s ->
  let s' := snd (fill color s) in
  _buffer s' !! 0%nat = _buffer s !! 0%nat /\
  _buffer s' = hd 0 (_buffer s) :: replicate 16 (if truthy color then 0xff else 0x00) /\
  forall x y, valid_coord s' x y -> pixel_addr x y <= 15 ->
              _pixel x y PyNone s' = (Ok (Some (truthy color)), s').
Proof.
  intros (Ht & Hlen & H0 & Hbytes). cbv zeta.
  rewrite fill_run by exact Hlen. cbv zeta.
  set (b := hd 0 (_buffer s) :: replicate 16 _).
  assert (_buffer (snd (if _auto_write s then show (with_buffer b s)
                        else (Ok tt, with_buffer b s))) = b) as Hb
    by (destruct (_auto_write s); reflexivity).
  rewrite Hb. split; [|split; [reflexivity|]].
  - subst b. destruct (_buffer s); [discriminate|]. cbn. reflexivity.
  - intros x y Hv Ha. rewrite pixel_read by exact Hv. rewrite Hb.
    pose proof Hv as [[Hx0 _] [Hy0 _]].
    pose proof (pixel_addr_nonneg x y Hx0 Hy0) as Hnn.
    rewrite (getitem_in _ _ (if truthy color then 0xff else 0x00)); [|lia|].
    + f_equal. f_equal. f_equal. pose proof (bit_pos_range x) as Hk.
      assert (exists k, (k < 8)%nat /\ x mod 8 = Z.of_nat k) as (k & Hk8 & ->)
        by (exists (Z.to_nat (x mod 8)); lia).
      destruct (truthy color);
        do 8 (destruct k as [|k]; [reflexivity|]); lia.
    + subst b. replace (Z.to_nat (pixel_addr x y + 1))
        with (S (Z.to_nat (pixel_addr x y))) by lia.
      cbn [lookup list_lookup]. apply lookup_replicate_2. lia.
Qed.

Lemma fill_then_read_witness :
  let s := fresh_display in
  _pixel 15 7 PyNone (snd (fill (PyBool true) s))
  = (Ok (Some true), snd (fill (PyBool true) s)).
Proof.
  cbv zeta.
  refine (proj2 (proj2 (fill_then_read _ (PyBool true) _)) 15 7 _ _).
  - wf_by_evaluation.
  - by_evaluation.
  - by_evaluation.
Defined.

(** ** Coordinate checks *)

(** C5, as stated, fails: with [size = (16, 9)] the last coordinate
    (15, 8) passes both checks and the read raises [IndexError]. *)
Lemma last_pixel_read_fails_past_buffer :
  let s := oversized_display in
  _size s = (16, 9) /\ fst (_pixel (16 - 1) (9 - 1) PyNone s) = Raise IndexError.
Proof. by_evaluation. Qed.

(** C5 (amended): with [(w, h)] the size of the object, reading [(w, 0)]
    raises the X-range [ValueError] and reading [(0, h)] raises a
    [ValueError] (the Y-range one when [w > 0]), both leaving the object
    untouched; whenever [x] is out of range the X-range error is the one
    raised, whatever [y] is; and on a well-formed object with [w >= 1],
    [h >= 1] and [2*(h-1) + (w-1)/8 <= 15] reading [(w-1, h-1)] returns a
    boolean. *)
Theorem pixel_bounds s :
  let w := (_size s).1 in
  let h := (_size s).2 in
  let x_error := ValueError ("X value out of range: 0-" ++ str (w - 1)) in
  let y_error := ValueError ("Y value out of range: 0-" ++ str (h - 1)) in
  _pixel w 0 PyNone s = (Raise x_error, s) /\
  _pixel 0 h PyNone s = (Raise (if 0 <? w then y_error else x_error), s) /\
  (forall x y c, ~ 0 <= x < w -> _pixel x y c s = (Raise x_error, s)) /\
  (wf s -> 1 <= w -> 1 <= h -> pixel_addr (w - 1) (h - 1) <= 15 ->
   exists b, _pixel (w - 1) (h - 1) PyNone s = (Ok (Some b), s)).
Proof.
  cbv zeta. split; [|split; [|split]].
  - apply pixel_x_out. lia.
  - destruct (Z.ltb_spec 0 (_size s).1) as [Hw|Hw].
    + apply pixel_y_out; lia.
    + apply pixel_x_out. lia.
  - intros x y c Hx. apply pixel_x_out. exact Hx.
  - intros (Ht & Hlen & H0 & Hbytes) Hw Hh Ha.
    assert (valid_coord s ((_size s).1 - 1) ((_size s).2 - 1)) as Hv
      by (unfold valid_coord; lia).
    pose proof (pixel_addr_nonneg ((_size s).1 - 1) ((_size s).2 - 1)
                  ltac:(lia) ltac:(lia)) as Hnn.
    destruct (lookup_lt_is_Some_2 (_buffer s)
               (Z.to_nat (pixel_addr ((_size s).1 - 1) ((_size s).2 - 1) + 1)))
      as [v Hlk]; [lia|].
    eexists. rewrite pixel_read by exact Hv.
    rewrite (getitem_in _ _ v) by (lia || assumption). reflexivity.
Qed.

Lemma pixel_bounds_witness :
  let s := fresh_display in
  _pixel 16 9 (PyBool true) s
  = (Raise (ValueError "X value out of range: 0-15"), s) /\
  exists b, _pixel 15 7 PyNone s = (Ok (Some b), s).
Proof.
  cbv zeta.
  pose proof (pixel_bounds
    fresh_display)
    as (_ & _ & Hx & Hlast).
  split.
  - apply (Hx 16 9 (PyBool true)). by_evaluation.
  - apply Hlast; [wf_by_evaluation | by_evaluation..].
Defined.

(** ** Command writes *)

Lemma write_cmd_run byte s :
  length (_temp s) = 1%nat -> 0 <= byte < 256 ->
  _write_cmd byte s =
  (if next_ack s then Ok tt else Raise OSError,
   with_i2c_device
     (mkI2CDevice (address (i2c_device s)) (tl (acks (i2c_device s)))
                  (bus_log s ++ [Txn [byte] (next_ack s)]))
     (with_temp [byte] s)).
Proof.
  intros Hlen Hb. destruct s as [dev tmp buf sz aw br bn]. cbn in Hlen.
  destruct tmp as [|t [|]]; try discriminate.
  unfold _write_cmd, mbind, M_bind, get, lift. cbn [_temp].
  rewrite setitem_in by (cbn; lia). reflexivity.
Qed.

Lemma blink_byte rate :
  0 <= rate <= 3 ->
  Z.land rate 0x03 = rate /\
  0 <= Z.lor (Z.lor 0x80 0x01) (Z.shiftl rate 1) < 256 /\
  blink_command [Z.lor (Z.lor 0x80 0x01) (Z.shiftl rate 1)] = Some rate /\
  brightness_command [Z.lor (Z.lor 0x80 0x01) (Z.shiftl rate 1)] = None.
Proof.
  intros H.
  assert (rate = 0 \/ rate = 1 \/ rate = 2 \/ rate = 3) as Hc by lia.
  repeat destruct Hc as [->|Hc]; try subst rate; by_evaluation.
Qed.

Lemma brightness_byte level :
  0 <= level <= 15 ->
  Z.land level 0x0F = level /\
  0 <= Z.lor 0xE0 level < 256 /\
  brightness_command [Z.lor 0xE0 level] = Some level /\
  blink_command [Z.lor 0xE0 level] = None.
Proof.
  intros H.
  assert (exists n, (n < 16)%nat /\ level = Z.of_nat n) as (n & Hn & ->)
    by (exists (Z.to_nat level); lia).
  do 16 (destruct n as [|n]; [by_evaluation|]). lia.
Qed.

Lemma blink_rate_set_run rate s :
  0 <= rate <= 3 ->
  blink_rate_set rate s =
  _write_cmd (Z.lor (Z.lor 0x80 0x01) (Z.shiftl rate 1))
             (with_blink_rate (Some rate) s).
Proof.
  intros H. destruct (blink_byte rate H) as (Hm & _).
  unfold blink_rate_set.
  replace ((0 <=? rate) && (rate <=? 3)) with true
    by (symmetry; apply andb_true_iff; rewrite !Z.leb_le; lia).
  cbn [negb]. cbv zeta. rewrite Hm. reflexivity.
Qed.

Lemma brightness_set_run level s :
  0 <= level <= 15 ->
  brightness_set level s =
  _write_cmd (Z.lor 0xE0 level) (with_brightness (Some level) s).
Proof.
  intros H. destruct (brightness_byte level H) as (Hm & _).
  unfold brightness_set.
  replace ((0 <=? level) && (level <=? 15)) with true
    by (symmetry; apply andb_true_iff; rewrite !Z.leb_le; lia).
  cbn [negb]. cbv zeta. rewrite Hm. reflexivity.
Qed.

Lemma blink_rate_set_reject rate s :
  ~ 0 <= rate <= 3 ->
  blink_rate_set rate s =
  (Raise (ValueError "Blink rate must be an integer in the range: 0-3"), s).
Proof.
  intros H. unfold blink_rate_set.
  replace ((0 <=? rate) && (rate <=? 3)) with false; [reflexivity|].
  symmetry. apply andb_false_iff. rewrite !Z.leb_gt. lia.
Qed.

Lemma brightness_set_reject level s :
  ~ 0 <= level <= 15 ->
  brightness_set level s =
  (Raise (ValueError "Brightness must be an integer in the range: 0-15"), s).
Proof.
  intros H. unfold brightness_set.
  replace ((0 <=? level) && (level <=? 15)) with false; [reflexivity|].
  symmetry. apply andb_false_iff. rewrite !Z.leb_gt. lia.
Qed.

(** C4: a blink rate outside [0, 3] and a brightness outside [0, 15] are
    rejected with the setter's [ValueError] and the object is returned
    exactly as it was: the cached settings are unchanged and nothing was
    put on the bus. *)
Theorem setters_reject_out_of_range s :
  (forall rate, ~ 0 <= rate <= 3 ->
     blink_rate_set rate s =
     (Raise (ValueError "Blink rate must be an integer in the range: 0-3"), s)) /\
  (forall level, ~ 0 <= level <= 15 ->
     brightness_set level s =
     (Raise (ValueError "Brightness must be an integer in the range: 0-15"), s)).
Proof.
  split.
  - intros rate H. apply blink_rate_set_reject. exact H.
  - intros level H. apply brightness_set_reject. exact H.
Qed.

Lemma setters_reject_out_of_range_witness :
  let s := fresh_display in
  fst (blink_rate_set 4 s) = Raise (ValueError "Blink rate must be an integer in the range: 0-3") /\
  snd (blink_rate_set (-1) s) = s /\
  snd (brightness_set 16 s) = s.
Proof.
  cbv zeta.
  destruct (setters_reject_out_of_range
    (fresh_display))
    as [Hr Hl].
  split; [exact (f_equal fst (Hr 4 ltac:(lia)))|].
  split; [exact (f_equal snd (Hr (-1) ltac:(lia)))|].
  exact (f_equal snd (Hl 16 ltac:(lia))).
Defined.

(** C9: on an object whose command scratch byte is allocated, a blink rate
    in [0, 3] puts exactly one transaction on the bus, the single byte
    [0x80 | 0x01 | (rate << 1)], and a brightness in [0, 15] exactly one
    transaction, the single byte [0xE0 | level]; the setter returns normally
    exactly when the device acknowledges that write. *)
Theorem setter_command_bytes s :
  length (_temp s) = 1%nat ->
  (forall rate, 0 <= rate <= 3 ->
     let r := blink_rate_set rate s in
     fst r = (if next_ack s then Ok tt else Raise OSError) /\
     bus_log (snd r) =
       bus_log s ++ [Txn [Z.lor (Z.lor 0x80 0x01) (Z.shiftl rate 1)] (next_ack s)]) /\
  (forall level, 0 <= level <= 15 ->
     let r := brightness_set level s in
     fst r = (if next_ack s then Ok tt else Raise OSError) /\
     bus_log (snd r) = bus_log s ++ [Txn [Z.lor 0xE0 level] (next_ack s)]).
Proof.
  intros Hlen. split.
  - intros rate H. cbv zeta. rewrite blink_rate_set_run by exact H.
    destruct (blink_byte rate H) as (_ & Hb & _).
    rewrite write_cmd_run by assumption. split; reflexivity.
  - intros level H. cbv zeta. rewrite brightness_set_run by exact H.
    destruct (brightness_byte level H) as (_ & Hb & _).
    rewrite write_cmd_run by assumption. split; reflexivity.
Qed.

Lemma setter_command_bytes_witness :
  let s := fresh_display in
  bus_log (snd (blink_rate_set 2 s)) = bus_log s ++ [Txn [0x85] true] /\
  bus_log (snd (brightness_set 7 s)) = bus_log s ++ [Txn [0xE7] true].
Proof.
  cbv zeta.
  destruct (setter_command_bytes
    (fresh_display)
    eq_refl) as [Hr Hl].
  split.
  - exact (proj2 (Hr 2 ltac:(lia))).
  - exact (proj2 (Hl 7 ltac:(lia))).
Defined.

(** ** Construction *)

(** A construction whose writes are all acknowledged: the object it returns
    and the transactions it put on the bus. *)
Lemma init_run dev size (aw : bool) :
  acknowledged (if aw then 4 else 3)%nat (acks dev) = true ->
  __init__ dev size aw =
  (Ok tt,
   mkHT16K33
     (mkI2CDevice (address dev) (drop (if aw then 4 else 3)%nat (acks dev))
        (log dev ++ (if aw then [Txn (replicate 17 0) true] else @nil txn) ++
           [Txn [0x21] true; Txn [0x81] true; Txn [0xEF] true])%list)
     [0xEF] (replicate 17 0) size aw (Some 0) (Some 15)).
Proof.
  destruct dev as [a orc l]. unfold acknowledged. cbn [acks address log].
  destruct aw.
  - destruct orc as [|[] [|[] [|[] [|[] orc]]]]; cbn; intros H;
      try discriminate H; cbv -[app]; rewrite <- ?app_assoc; reflexivity.
  - destruct orc as [|[] [|[] [|[] orc]]]; cbn; intros H;
      try discriminate H; cbv -[app]; rewrite <- ?app_assoc; reflexivity.
Qed.

Lemma acknowledged_3_of_4 l : acknowledged 4 l = true -> acknowledged 3 l = true.
Proof.
  unfold acknowledged.
  destruct l as [|[] [|[] [|[] [|[] l]]]]; cbn; intros H;
    (reflexivity || discriminate H).
Qed.

(** C6, as stated, fails: constructed with [auto_write=False], [fill(0)]
    does not sync and the bus sees three transactions, not four. *)
Lemma init_without_auto_write_has_three_transactions :
  let r := __init__ (I2CDevice_new default_address []) default_size false in
  fst r = Ok tt /\
  bus_log (snd r) = [Txn [0x21] true; Txn [0x81] true; Txn [0xEF] true] /\
  length (bus_log (snd r)) <> 4%nat.
Proof. by_evaluation. Qed.

(** C6 (amended): on a fresh session whose first four writes are
    acknowledged, construction with [auto_write=True] returns normally
    after exactly four transactions, in order the 17 zero bytes of the
    cleared frame, [0x21] (oscillator on), [0x81] (blink rate 0) and [0xEF]
    (brightness 15); with [auto_write=False] the frame is not sent and the
    transactions are exactly the three command bytes. *)
Theorem init_transactions addr outcomes size :
  acknowledged 4 outcomes = true ->
  let on := __init__ (I2CDevice_new addr outcomes) size true in
  let off := __init__ (I2CDevice_new addr outcomes) size false in
  (fst on = Ok tt /\
   bus_log (snd on) =
     [Txn (replicate 17 0) true; Txn [0x21] true; Txn [0x81] true; Txn [0xEF] true]) /\
  (fst off = Ok tt /\
   bus_log (snd off) = [Txn [0x21] true; Txn [0x81] true; Txn [0xEF] true]).
Proof.
  intros H4. pose proof (acknowledged_3_of_4 _ H4) as H3. cbv zeta.
  rewrite (init_run (I2CDevice_new addr outcomes) size true) by exact H4.
  rewrite (init_run (I2CDevice_new addr outcomes) size false) by exact H3.
  repeat split.
Qed.

Lemma init_transactions_witness :
  bus_log (snd (__init__ (I2CDevice_new default_address []) default_size true))
  = [Txn (replicate 17 0) true; Txn [0x21] true; Txn [0x81] true; Txn [0xEF] true].
Proof.
  exact (proj2 (proj1 (init_transactions default_address [] default_size eq_refl))).
Defined.

(** ** The invariant of the object *)

Lemma wf_with_buffer b s :
  wf s -> length b = 17%nat -> b !! 0%nat = Some 0 ->
  Forall (fun v => 0 <= v < 256) b -> wf (with_buffer b s).
Proof. intros (Ht & _) Hl H0 Hb. repeat split; assumption. Qed.

Lemma wf_show s : wf s -> wf (snd (show s)).
Proof. intros H. exact H. Qed.

Lemma wf_pixel_store s x y c v :
  wf s -> 0 <= pixel_addr x y ->
  _buffer s !! Z.to_nat (pixel_addr x y + 1) = Some v ->
  wf (with_buffer (<[Z.to_nat (pixel_addr x y + 1):=updated_byte c x v]> (_buffer s)) s).
Proof.
  intros Hwf Hnn Hlk. pose proof Hwf as (Ht & Hlen & H0 & Hbytes).
  apply wf_with_buffer; [exact Hwf| | |].
  - rewrite length_insert. exact Hlen.
  - rewrite list_lookup_insert_ne by lia. exact H0.
  - apply Forall_insert; [exact Hbytes|].
    assert (0 <= v < 256) as Hb by (eapply (Forall_lookup_1 _ _ _ _ Hbytes Hlk)).
    unfold updated_byte. destruct (truthy c);
      [apply set_bit_byte | apply clear_bit_byte]; exact Hb.
Qed.

(** [_pixel] keeps the invariant, whatever its arguments and outcome. *)
Lemma wf_pixel s x y c : wf s -> wf (snd (_pixel x y c s)).
Proof.
  intros Hwf.
  destruct (decide (0 <= x < (_size s).1)) as [Hx|Hx];
    [|rewrite pixel_x_out by exact Hx; exact Hwf].
  destruct (decide (0 <= y < (_size s).2)) as [Hy|Hy];
    [|rewrite pixel_y_out by assumption; exact Hwf].
  assert (valid_coord s x y) as Hv by (split; assumption).
  pose proof (pixel_addr_nonneg x y ltac:(lia) ltac:(lia)) as Hnn.
  assert (c = PyNone \/ c <> PyNone) as [->|Hc]
    by (destruct c; [left; reflexivity | right; discriminate..]).
  { rewrite pixel_read by exact Hv. destruct (bytearray_getitem _ _); exact Hwf. }
  rewrite pixel_write by assumption.
  destruct (bytearray_getitem _ _) as [v|e] eqn:Hget; [|exact Hwf].
  apply getitem_inv in Hget; [|lia].
  destruct (setitem_cases (_buffer s) (pixel_addr x y + 1) (updated_byte c x v))
    as [[e He]|Hset]; [lia|rewrite He; exact Hwf|].
  rewrite Hset.
  pose proof (wf_pixel_store s x y c v Hwf Hnn Hget) as Hwf'.
  destruct (_auto_write s); exact Hwf'.
Qed.

Lemma wf_fill s c : wf s -> wf (snd (fill c s)).
Proof.
  intros Hwf. pose proof Hwf as (Ht & Hlen & H0 & Hbytes).
  rewrite fill_run by exact Hlen. cbv zeta.
  assert (wf (with_buffer (hd 0 (_buffer s) ::
              replicate 16 (if truthy c then 0xff else 0x00)) s)) as Hwf'.
  { apply wf_with_buffer; [exact Hwf|reflexivity| |].
    - destruct (_buffer s); [discriminate|]. cbn in *. exact H0.
    - constructor.
      + destruct (_buffer s) as [|b0 ?]; [discriminate|]. cbn.
        inversion Hbytes; assumption.
      + apply Forall_replicate. destruct (truthy c); lia. }
  destruct (_auto_write s); exact Hwf'.
Qed.

Lemma init_wf dev size aw s : __init__ dev size aw = (Ok tt, s) -> wf s.
Proof.
  destruct dev as [a orc l].
  destruct aw; destruct orc as [|[] [|[] [|[] [|[] orc]]]];
    intros H; cbv -[app] in H; inversion H; subst; clear H;
    unfold wf; cbn; (repeat split; try reflexivity); repeat constructor; lia.
Qed.

(** ** Manual synchronisation *)

(** C7: on a constructed object with [auto_write] off, a pixel write at a
    coordinate in range puts nothing on the bus, and the [show()] that
    follows puts exactly one transaction on it, whose payload is the
    buffer as it then stands: 17 bytes, byte 0 equal to 0x00.  [show]
    returns normally exactly when the device acknowledges, and leaves the
    buffer as it was. *)
Theorem manual_sync s x y (c : bool) :
  wf s -> _auto_write s = false -> valid_coord s x y ->
  let s1 := snd (_pixel x y (PyBool c) s) in
  let s2 := snd (show s1) in
  bus_log s1 = bus_log s /\
  bus_log s2 = bus_log s1 ++ [Txn (_buffer s1) (next_ack s1)] /\
  fst (show s1) = (if next_ack s1 then Ok tt else Raise OSError) /\
  length (_buffer s1) = 17%nat /\
  _buffer s1 !! 0%nat = Some 0 /\
  _buffer s2 = _buffer s1.
Proof.
  intros Hwf Haw Hv. cbv zeta.
  pose proof (wf_pixel s x y (PyBool c) Hwf) as (_ & Hlen & H0 & _).
  split; [|repeat split; assumption].
  rewrite pixel_write by (assumption || discriminate). rewrite Haw.
  destruct (bytearray_getitem _ _); [|reflexivity].
  destruct (bytearray_setitem _ _ _); reflexivity.
Qed.

Lemma manual_sync_witness :
  let s := snd (auto_write_set false fresh_display) in
  let s1 := snd (_pixel 11 5 (PyBool true) s) in
  bus_log s1 = bus_log s /\
  bus_log (snd (show s1)) = bus_log s1 ++ [Txn (_buffer s1) (next_ack s1)].
Proof.
  cbv zeta.
  destruct (manual_sync (snd (auto_write_set false fresh_display)) 11 5 true)
    as (H1 & H2 & _).
  - wf_by_evaluation.
  - reflexivity.
  - by_evaluation.
  - split; [exact H1 | exact H2].
Defined.

(** ** The cached settings and the chip *)

Lemma chip_register_snoc decode l t :
  chip_register decode (l ++ [t]) = chip_latch decode (chip_register decode l) t.
Proof. unfold chip_register. rewrite fold_left_app. reflexivity. Qed.

(** A frame of the buffer is no command. *)
Lemma frame_is_no_command (p : list Z) :
  length p = 17%nat -> blink_command p = None /\ brightness_command p = None.
Proof.
  intros H. destruct p as [|b [|b' p]]; try discriminate H. split; reflexivity.
Qed.

Lemma setitem_length (b b' : list Z) i v :
  bytearray_setitem b i v = Ok b' -> length b' = length b.
Proof.
  unfold bytearray_setitem. destruct (py_index _ _); [|discriminate].
  destruct (_ && _); [|discriminate].
  intros [= <-]. apply length_insert.
Qed.

Lemma quiet_refl s : quiet s s.
Proof. unfold quiet. repeat split. left. reflexivity. Qed.

Lemma quiet_with_buffer b s :
  length b = length (_buffer s) -> quiet s (with_buffer b s).
Proof. intros H. unfold quiet. cbn. repeat split; [exact H|]. left. reflexivity. Qed.

Lemma quiet_show_with_buffer b s :
  length b = length (_buffer s) -> quiet s (snd (show (with_buffer b s))).
Proof.
  intros H. unfold quiet. cbn. repeat split; try assumption.
  right. eexists. reflexivity.
Qed.

Lemma quiet_buffer_store i v s : quiet s (snd (buffer_store i v s)).
Proof.
  rewrite buffer_store_run.
  destruct (bytearray_setitem _ _ _) as [b|e] eqn:E; [|apply quiet_refl].
  apply quiet_with_buffer. eapply setitem_length. exact E.
Qed.

Lemma quiet_pixel x y c s : quiet s (snd (_pixel x y c s)).
Proof.
  destruct (decide (0 <= x < (_size s).1)) as [Hx|Hx];
    [|rewrite pixel_x_out by exact Hx; apply quiet_refl].
  destruct (decide (0 <= y < (_size s).2)) as [Hy|Hy];
    [|rewrite pixel_y_out by assumption; apply quiet_refl].
  assert (valid_coord s x y) as Hv by (split; assumption).
  assert (c = PyNone \/ c <> PyNone) as [->|Hc]
    by (destruct c; [left; reflexivity | right; discriminate..]).
  { rewrite pixel_read by exact Hv.
    destruct (bytearray_getitem _ _); apply quiet_refl. }
  rewrite pixel_write by assumption.
  destruct (bytearray_getitem _ _) as [v|e]; [|apply quiet_refl].
  destruct (bytearray_setitem _ _ _) as [b|e] eqn:E; [|apply quiet_refl].
  apply setitem_length in E.
  destruct (_auto_write s);
    [apply quiet_show_with_buffer | apply quiet_with_buffer]; exact E.
Qed.

Lemma quiet_fill c s : shape s -> quiet s (snd (fill c s)).
Proof.
  intros [_ Hlen]. rewrite fill_run by exact Hlen. cbv zeta.
  destruct (_auto_write s);
    [apply quiet_show_with_buffer | apply quiet_with_buffer];
    rewrite Hlen; reflexivity.
Qed.

(** A quiet step keeps the cache in step with the chip. *)
Lemma quiet_synced s s' :
  shape s -> quiet s s' -> cache_synced s -> shape s' /\ cache_synced s'.
Proof.
  intros [Ht Hlen] (Hr & Hb & Htemp & Hl & Hlog) [Sr Sb].
  split; [split; congruence|].
  unfold cache_synced, chip_blink_rate, chip_brightness in *.
  destruct Hlog as [->|[a ->]]; [split; congruence|].
  rewrite !chip_register_snoc. unfold chip_latch. cbn [acked payload].
  destruct (frame_is_no_command (_buffer s') ltac:(congruence)) as [-> ->].
  destruct a; split; congruence.
Qed.

Lemma bus_log_with_i2c_device d s : bus_log (with_i2c_device d s) = log d.
Proof. reflexivity. Qed.

(** What a setter does when its argument is in range. *)
Lemma blink_rate_set_effect rate s :
  shape s -> 0 <= rate <= 3 ->
  let s' := snd (blink_rate_set rate s) in
  fst (blink_rate_set rate s) = (if next_ack s then Ok tt else Raise OSError) /\
  shape s' /\
  _blink_rate s' = Some rate /\ _brightness s' = _brightness s /\
  chip_blink_rate s' = (if next_ack s then Some rate else chip_blink_rate s) /\
  chip_brightness s' = chip_brightness s.
Proof.
  intros [Ht Hlen] H. cbv zeta.
  destruct (blink_byte rate H) as (_ & Hb & Hdec & Hdec').
  rewrite blink_rate_set_run by exact H.
  rewrite write_cmd_run by assumption.
  cbn [fst snd]. split; [reflexivity|]. split; [split; [reflexivity|exact Hlen]|].
  split; [reflexivity|]. split; [reflexivity|].
  unfold chip_blink_rate, chip_brightness.
  rewrite !bus_log_with_i2c_device. cbn [log].
  change (bus_log (with_blink_rate (Some rate) s)) with (bus_log s).
  change (next_ack (with_blink_rate (Some rate) s)) with (next_ack s).
  rewrite !chip_register_snoc. unfold chip_latch. cbn [acked payload].
  rewrite Hdec, Hdec'. destruct (next_ack s); split; reflexivity.
Qed.

Lemma brightness_set_effect level s :
  shape s -> 0 <= level <= 15 ->
  let s' := snd (brightness_set level s) in
  fst (brightness_set level s) = (if next_ack s then Ok tt else Raise OSError) /\
  shape s' /\
  _brightness s' = Some level /\ _blink_rate s' = _blink_rate s /\
  chip_brightness s' = (if next_ack s then Some level else chip_brightness s) /\
  chip_blink_rate s' = chip_blink_rate s.
Proof.
  intros [Ht Hlen] H. cbv zeta.
  destruct (brightness_byte level H) as (_ & Hb & Hdec & Hdec').
  rewrite brightness_set_run by exact H.
  rewrite write_cmd_run by assumption.
  cbn [fst snd]. split; [reflexivity|]. split; [split; [reflexivity|exact Hlen]|].
  split; [reflexivity|]. split; [reflexivity|].
  unfold chip_blink_rate, chip_brightness.
  rewrite !bus_log_with_i2c_device. cbn [log].
  change (bus_log (with_brightness (Some level) s)) with (bus_log s).
  change (next_ack (with_brightness (Some level) s)) with (next_ack s).
  rewrite !chip_register_snoc. unfold chip_latch. cbn [acked payload].
  rewrite Hdec, Hdec'. destruct (next_ack s); split; reflexivity.
Qed.

Lemma init_synced dev size aw s :
  __init__ dev size aw = (Ok tt, s) -> shape s /\ cache_synced s.
Proof.
  destruct dev as [a orc l].
  destruct aw; destruct orc as [|[] [|[] [|[] [|[] orc]]]];
    intros H; cbv -[app] in H; inversion H; subst; clear H;
    (split; [split; reflexivity|]);
    unfold cache_synced, chip_blink_rate, chip_brightness, bus_log;
    cbn [i2c_device log _blink_rate _brightness];
    rewrite !chip_register_snoc; split; vm_compute; reflexivity.
Qed.

Lemma outcome_then_ret {A} (m : M A) s :
  outcome ((m ;; mret tt) s) = outcome (m s).
Proof.
  unfold outcome, mbind, M_bind. destruct (m s) as [[a|e] s']; reflexivity.
Qed.

(** Every operation other than the two setters is quiet. *)
Lemma run_op_quiet o s :
  shape s -> is_setter o = false -> quiet s (snd (run_op o s)).
Proof.
  intros Hs Ho. destruct o as [a|r|l|[x y]|[x y] v| |c|i v|i];
    try discriminate Ho; cbn [run_op].
  - unfold quiet. cbn. repeat split. left. reflexivity.
  - apply quiet_pixel.
  - unfold __setitem__. rewrite outcome_then_ret. apply quiet_pixel.
  - apply (quiet_show_with_buffer (_buffer s) s). reflexivity.
  - apply quiet_fill. exact Hs.
  - apply quiet_buffer_store.
  - apply quiet_refl.
Qed.

(** C8, as stated, fails: once the object is constructed, a blink-rate
    write that the device does not acknowledge raises [OSError] and leaves
    the cached rate at the requested 2 while the chip still holds 0. *)
Lemma refused_write_leaves_cache_ahead_of_chip :
  let r := blink_rate_set 2 flaky_display in
  cache_synced flaky_display /\
  fst r = Raise OSError /\
  _blink_rate (snd r) = Some 2 /\ chip_blink_rate (snd r) = Some 0.
Proof. by_evaluation. Qed.

(** C8 (amended): a construction that returns leaves the cached blink rate
    and brightness equal to the values last acknowledged by the chip
    (0 and 15); every later operation keeps them equal as long as no
    setter's command write is refused by the bus.  A setter stores an
    in-range value in the cache before it writes to the bus: when that
    write is refused the setter raises [OSError], the cache holds the
    requested value and the chip keeps the previous one. *)
Theorem cache_mirrors_acknowledged_writes :
  (forall dev size aw s,
     __init__ dev size aw = (Ok tt, s) -> shape s /\ cache_synced s) /\
  (forall o s,
     shape s -> cache_synced s ->
     is_setter o = false \/ fst (run_op o s) <> Some OSError ->
     shape (snd (run_op o s)) /\ cache_synced (snd (run_op o s))) /\
  (forall rate s,
     shape s -> 0 <= rate <= 3 -> next_ack s = false ->
     let r := blink_rate_set rate s in
     fst r = Raise OSError /\ _blink_rate (snd r) = Some rate /\
     chip_blink_rate (snd r) = chip_blink_rate s) /\
  (forall level s,
     shape s -> 0 <= level <= 15 -> next_ack s = false ->
     let r := brightness_set level s in
     fst r = Raise OSError /\ _brightness (snd r) = Some level /\
     chip_brightness (snd r) = chip_brightness s).
Proof.
  split; [exact init_synced|]. split; [|split].
  - intros o s Hs Hc Ho.
    destruct (is_setter o) eqn:Hset.
    2:{ apply (quiet_synced s); [exact Hs|apply run_op_quiet; assumption|exact Hc]. }
    destruct Ho as [Ho|Ho]; [discriminate Ho|].
    destruct Hc as [Cr Cb].
    destruct o as [a|rate|level|k|k v| |c|i v|i]; try discriminate Hset;
      cbn [run_op] in *; unfold outcome in *; cbn [fst snd] in *.
    + destruct (decide (0 <= rate <= 3)) as [Hr|Hr].
      * destruct (blink_rate_set_effect rate s Hs Hr)
          as (Hres & Hs' & Hrate & Hbr & Hchip & Hchip').
        rewrite Hres in Ho.
        destruct (next_ack s); [|exfalso; apply Ho; reflexivity].
        split; [exact Hs'|]. split; congruence.
      * rewrite blink_rate_set_reject by exact Hr. split; [exact Hs|split; assumption].
    + destruct (decide (0 <= level <= 15)) as [Hr|Hr].
      * destruct (brightness_set_effect level s Hs Hr)
          as (Hres & Hs' & Hlevel & Hbl & Hchip & Hchip').
        rewrite Hres in Ho.
        destruct (next_ack s); [|exfalso; apply Ho; reflexivity].
        split; [exact Hs'|]. split; congruence.
      * rewrite brightness_set_reject by exact Hr. split; [exact Hs|split; assumption].
  - intros rate s Hs Hr Hn. cbv zeta.
    destruct (blink_rate_set_effect rate s Hs Hr) as (Hres & _ & Hrate & _ & Hchip & _).
    rewrite Hn in Hres, Hchip. auto.
  - intros level s Hs Hr Hn. cbv zeta.
    destruct (brightness_set_effect level s Hs Hr) as (Hres & _ & Hlevel & _ & Hchip & _).
    rewrite Hn in Hres, Hchip. auto.
Qed.

Lemma cache_mirrors_acknowledged_writes_witness :
  cache_synced fresh_display /\
  cache_synced (snd (run_op (Set_brightness 7) fresh_display)) /\
  _blink_rate (snd (blink_rate_set 2 flaky_display)) = Some 2.
Proof.
  destruct cache_mirrors_acknowledged_writes as (Hinit & Hstep & Hblink & _).
  split; [|split].
  - exact (proj2 (Hinit _ _ _ _ fresh_display_init)).
  - apply Hstep; [by_evaluation..|]. right. by_evaluation.
  - exact (proj1 (proj2 (Hblink 2 flaky_display
                   ltac:(by_evaluation) ltac:(lia) ltac:(by_evaluation)))).
Defined.

(** ** The invariant holds on every reachable object *)

Lemma setitem_ok_inv (b b' : list Z) i v :
  0 <= i -> bytearray_setitem b i v = Ok b' ->
  b' = <[Z.to_nat i:=v]> b /\ 0 <= v < 256.
Proof.
  intros Hi. destruct (Z.lt_ge_cases i (Z.of_nat (length b))) as [Hlt|Hge].
  - unfold bytearray_setitem. rewrite py_index_nonneg by lia.
    destruct (Z.leb_spec 0 v), (Z.ltb_spec v 256); cbn [andb];
      intros [= <-] || discriminate. split; [reflexivity|lia].
  - rewrite setitem_beyond by lia. discriminate.
Qed.

Lemma wf_write_cmd byte s : wf s -> 0 <= byte < 256 -> wf (snd (_write_cmd byte s)).
Proof.
  intros (Ht & Hlen & H0 & Hb) Hbyte.
  rewrite write_cmd_run by assumption. repeat split; assumption.
Qed.

Lemma wf_run_op o s : wf s -> in_contract o -> wf (snd (run_op o s)).
Proof.
  intros Hwf Hc. destruct o as [a|rate|level|[x y]|[x y] v| |c|i v|i]; cbn [run_op].
  - exact Hwf.
  - destruct (decide (0 <= rate <= 3)) as [Hr|Hr].
    + unfold outcome. cbn [snd]. rewrite blink_rate_set_run by exact Hr.
      apply wf_write_cmd; [exact Hwf|]. apply (blink_byte rate Hr).
    + unfold outcome. rewrite blink_rate_set_reject by exact Hr. exact Hwf.
  - destruct (decide (0 <= level <= 15)) as [Hr|Hr].
    + unfold outcome. cbn [snd]. rewrite brightness_set_run by exact Hr.
      apply wf_write_cmd; [exact Hwf|]. apply (brightness_byte level Hr).
    + unfold outcome. rewrite brightness_set_reject by exact Hr. exact Hwf.
  - apply wf_pixel. exact Hwf.
  - unfold __setitem__. rewrite outcome_then_ret. apply wf_pixel. exact Hwf.
  - exact Hwf.
  - apply wf_fill. exact Hwf.
  - cbn in Hc. unfold outcome, _set_buffer. cbn [snd]. rewrite buffer_store_run.
    destruct (bytearray_setitem _ _ _) as [b|e] eqn:E; [|exact Hwf].
    apply setitem_ok_inv in E as [-> Hv]; [|lia].
    pose proof Hwf as (Ht & Hlen & H0 & Hb).
    apply wf_with_buffer; [exact Hwf| | |].
    + rewrite length_insert. exact Hlen.
    + rewrite list_lookup_insert_ne by lia. exact H0.
    + apply Forall_insert; assumption.
  - exact Hwf.
Qed.

Lemma reachable_wf s : reachable s -> wf s.
Proof.
  induction 1 as [dev size aw s Hinit | o s _ IH Hc].
  - eapply init_wf. exact Hinit.
  - apply wf_run_op; assumption.
Qed.

(** * Further properties of the driver *)

Lemma wide_display_init :
  __init__ (I2CDevice_new default_address []) (24, 8) default_auto_write
  = (Ok tt, wide_display).
Proof. vm_compute. reflexivity. Qed.

(** ** The low-level buffer accessors *)

Lemma py_index_below len i : i < - Z.of_nat len -> py_index len i = None.
Proof.
  intros H. unfold py_index.
  replace (0 <=? i) with false by (symmetry; apply Z.leb_gt; lia).
  replace (- Z.of_nat len <=? i) with false by (symmetry; apply Z.leb_gt; lia).
  reflexivity.
Qed.

(** A negative index in range counts from the end. *)
Lemma py_index_wrap len i :
  - Z.of_nat len <= i < 0 -> py_index len i = py_index len (i + Z.of_nat len).
Proof.
  intros H. rewrite (py_index_nonneg len (i + Z.of_nat len)) by lia.
  unfold py_index.
  replace (0 <=? i) with false by (symmetry; apply Z.leb_gt; lia).
  replace (- Z.of_nat len <=? i) with true by (symmetry; apply Z.leb_le; lia).
  replace (i <? 0) with true by (symmetry; apply Z.ltb_lt; lia).
  cbn [andb]. do 2 f_equal. lia.
Qed.

Lemma setitem_at (b : list Z) i v n :
  py_index (length b) i = Some n -> 0 <= v < 256 ->
  bytearray_setitem b i v = Ok (<[n:=v]> b).
Proof.
  intros Hi [H0 H1]. unfold bytearray_setitem. rewrite Hi.
  apply Z.leb_le in H0. apply Z.ltb_lt in H1. rewrite H0, H1. reflexivity.
Qed.

Lemma getitem_insert_ne (b : list Z) n v i :
  0 <= i -> Z.to_nat i <> n ->
  bytearray_getitem (<[n:=v]> b) i = bytearray_getitem b i.
Proof.
  intros Hi Hne. unfold bytearray_getitem. rewrite length_insert.
  destruct (py_index (length b) i) as [m|] eqn:E; [|reflexivity].
  destruct (Z.lt_ge_cases i (Z.of_nat (length b))) as [Hlt|Hge].
  - rewrite py_index_nonneg in E by lia. injection E as <-.
    rewrite list_lookup_insert_ne by congruence. reflexivity.
  - rewrite py_index_beyond in E by lia. discriminate E.
Qed.

(** X1: on an object with its 17-byte buffer, [_set_buffer(i, v)] with
    [0 <= i <= 15] and [v] a byte returns normally, [_get_buffer(i)] then
    returns [v], every other data byte and the prefix byte read as before,
    and nothing is put on the bus, whatever [auto_write] is. *)
Theorem buffer_accessors_roundtrip s i v :
  length (_buffer s) = 17%nat -> 0 <= i <= 15 -> 0 <= v < 256 ->
  let r := _set_buffer i v s in
  fst r = Ok tt /\
  _get_buffer i (snd r) = (Ok v, snd r) /\
  (forall j, 0 <= j <= 15 -> j <> i ->
     fst (_get_buffer j (snd r)) = fst (_get_buffer j s)) /\
  _buffer (snd r) !! 0%nat = _buffer s !! 0%nat /\
  bus_log (snd r) = bus_log s /\
  _auto_write (snd r) = _auto_write s.
Proof.
  intros Hlen Hi Hv. cbv zeta. unfold _set_buffer, _get_buffer.
  rewrite buffer_store_run, setitem_in by lia. cbn [fst snd].
  split; [reflexivity|]. split; [|split; [|repeat split]].
  - rewrite buffer_load_run. cbn [_buffer with_buffer].
    rewrite (getitem_in _ _ v); [reflexivity|lia|].
    apply list_lookup_insert_eq. lia.
  - intros j Hj Hne. rewrite !buffer_load_run. cbn [fst _buffer with_buffer].
    apply getitem_insert_ne; lia.
  - cbn [_buffer with_buffer]. apply list_lookup_insert_ne. lia.
Qed.

Lemma buffer_accessors_roundtrip_witness :
  _get_buffer 11 (snd (_set_buffer 11 0x5A fresh_display))
  = (Ok 0x5A, snd (_set_buffer 11 0x5A fresh_display)) /\
  bus_log (snd (_set_buffer 11 0x5A fresh_display)) = bus_log fresh_display.
Proof.
  destruct (buffer_accessors_roundtrip fresh_display 11 0x5A)
    as (_ & Hget & _ & _ & Hlog & _); [by_evaluation..|].
  split; [exact Hget | exact Hlog].
Defined.

(** X2: on an object with its 17-byte buffer, an index [i >= 16] or
    [i < -18] makes both accessors raise [IndexError] and leaves the object
    as it was. *)
Theorem buffer_accessors_index_error s i v :
  length (_buffer s) = 17%nat -> 0 <= v < 256 -> 16 <= i \/ i < -18 ->
  _set_buffer i v s = (Raise IndexError, s) /\
  _get_buffer i s = (Raise IndexError, s).
Proof.
  intros Hlen Hv Hi. unfold _set_buffer, _get_buffer.
  rewrite buffer_store_run, buffer_load_run.
  unfold bytearray_setitem, bytearray_getitem. rewrite Hlen.
  destruct Hi as [Hi|Hi].
  - rewrite py_index_beyond by (cbn; lia). split; reflexivity.
  - rewrite py_index_below by (cbn; lia). split; reflexivity.
Qed.

Lemma buffer_accessors_index_error_witness :
  _set_buffer 16 0 fresh_display = (Raise IndexError, fresh_display) /\
  _get_buffer (-19) fresh_display = (Raise IndexError, fresh_display).
Proof.
  split.
  - exact (proj1 (buffer_accessors_index_error fresh_display 16 0
                    eq_refl ltac:(lia) ltac:(lia))).
  - exact (proj2 (buffer_accessors_index_error fresh_display (-19) 0
                    eq_refl ltac:(lia) ltac:(lia))).
Defined.

(** X3: the accessor does not guard the prefix byte: [_set_buffer(-1, v)]
    and [_set_buffer(-18, v)] store the byte [v] at buffer byte 0 and
    return normally, all other bytes staying as they were; the next
    [show()] sends a frame that opens with [v]. *)
Theorem set_buffer_overwrites_prefix s i v :
  length (_buffer s) = 17%nat -> 0 <= v < 256 -> i = -1 \/ i = -18 ->
  let r := _set_buffer i v s in
  fst r = Ok tt /\
  _buffer (snd r) = <[0%nat:=v]> (_buffer s) /\
  _buffer (snd r) !! 0%nat = Some v /\
  bus_log (snd (show (snd r)))
  = bus_log s ++ [Txn (<[0%nat:=v]> (_buffer s)) (next_ack s)].
Proof.
  intros Hlen Hv Hi. cbv zeta. unfold _set_buffer.
  rewrite buffer_store_run.
  rewrite (setitem_at _ _ _ 0%nat); [|rewrite Hlen; destruct Hi; subst i; reflexivity|exact Hv].
  cbn [fst snd _buffer with_buffer]. repeat split.
  apply list_lookup_insert_eq. lia.
Qed.

Lemma set_buffer_overwrites_prefix_witness :
  _buffer (snd (_set_buffer (-1) 0x40 fresh_display)) !! 0%nat = Some 0x40.
Proof.
  exact (proj1 (proj2 (proj2 (set_buffer_overwrites_prefix fresh_display (-1) 0x40
    eq_refl ltac:(lia) ltac:(left; reflexivity))))).
Defined.

(** X4: on an object with its 17-byte buffer, an index [-17 <= i <= -2]
    wraps around: both accessors behave as they do for data byte
    [i + 17]. *)
Theorem buffer_accessors_wrap s i v :
  length (_buffer s) = 17%nat -> -17 <= i <= -2 ->
  _set_buffer i v s = _set_buffer (i + 17) v s /\
  _get_buffer i s = _get_buffer (i + 17) s.
Proof.
  intros Hlen Hi. unfold _set_buffer, _get_buffer.
  rewrite !buffer_store_run, !buffer_load_run.
  unfold bytearray_setitem, bytearray_getitem. rewrite Hlen.
  rewrite (py_index_wrap 17 (i + 1)) by (cbn; lia).
  replace (i + 1 + Z.of_nat 17) with (i + 17 + 1) by (cbn; lia).
  split; reflexivity.
Qed.

Lemma buffer_accessors_wrap_witness :
  _set_buffer (-2) 7 fresh_display = _set_buffer 15 7 fresh_display.
Proof.
  exact (proj1 (buffer_accessors_wrap fresh_display (-2) 7 eq_refl ltac:(lia))).
Defined.

(** ** Indexed access *)

Lemma pixel_read_state x y s : snd (_pixel x y PyNone s) = s.
Proof.
  destruct (decide (0 <= x < (_size s).1)) as [Hx|Hx];
    [|rewrite pixel_x_out by exact Hx; reflexivity].
  destruct (decide (0 <= y < (_size s).2)) as [Hy|Hy];
    [|rewrite pixel_y_out by assumption; reflexivity].
  rewrite pixel_read by (split; assumption).
  destruct (bytearray_getitem _ _); reflexivity.
Qed.

(** X5: assigning [None] through the index sugar is a read:
    [controller[x, y] = None] leaves the object exactly as it was, no bit
    written and nothing put on the bus, and it raises exactly what reading
    that pixel raises. *)
Theorem setitem_none_is_a_read s x y :
  snd (__setitem__ (x, y) PyNone s) = s /\
  fst (__setitem__ (x, y) PyNone s)
  = match fst (__getitem__ (x, y) s) with
    | Ok _ => Ok tt
    | Raise e => Raise e
    end.
Proof.
  pose proof (pixel_read_state x y s) as Hs.
  unfold __setitem__, __getitem__, mbind, M_bind.
  destruct (_pixel x y PyNone s) as [[a|e] s']; cbn [fst snd] in *; subst s';
    split; reflexivity.
Qed.

(** ** Pixels against each other *)

Lemma pixel_read_fst x y s :
  valid_coord s x y ->
  fst (_pixel x y PyNone s) =
  match bytearray_getitem (_buffer s) (pixel_addr x y + 1) with
  | Ok v => Ok (Some (Z.testbit v (x mod 8)))
  | Raise e => Raise e
  end.
Proof.
  intros Hv. rewrite pixel_read by exact Hv.
  destruct (bytearray_getitem _ _); reflexivity.
Qed.

(** The object after a write whose address lies in the buffer. *)
Lemma pixel_write_buffer x y c s :
  wf s -> valid_coord s x y -> pixel_addr x y <= 15 -> c <> PyNone ->
  exists v,
    _buffer s !! Z.to_nat (pixel_addr x y + 1) = Some v /\ 0 <= v < 256 /\
    _buffer (snd (_pixel x y c s))
    = <[Z.to_nat (pixel_addr x y + 1) := updated_byte c x v]> (_buffer s) /\
    _size (snd (_pixel x y c s)) = _size s.
Proof.
  intros Hwf Hv Ha Hc.
  destruct (pixel_write_in x y c s Hwf Hv Ha Hc) as (v & Hlk & Hb & Hrun).
  exists v. split; [exact Hlk|]. split; [exact Hb|].
  cbv zeta in Hrun. rewrite Hrun. destruct (_auto_write s); split; reflexivity.
Qed.

(** With at most 16 columns, address and bit position determine the pixel. *)
Lemma pixel_addr_bit_inj x y x' y' :
  0 <= x < 16 -> 0 <= x' < 16 ->
  pixel_addr x' y' = pixel_addr x y -> x' mod 8 = x mod 8 -> x' = x /\ y' = y.
Proof.
  unfold pixel_addr. intros Hx Hx' Ha Hm.
  pose proof (Z.div_mod x 8 ltac:(lia)). pose proof (Z.div_mod x' 8 ltac:(lia)).
  pose proof (bit_pos_range x). pose proof (bit_pos_range x').
  lia.
Qed.

(** Columns 16 and up share their byte and bit with the next row. *)
Lemma pixel_addr_wide x y :
  pixel_addr (x - 16) (y + 1) = pixel_addr x y /\ (x - 16) mod 8 = x mod 8.
Proof.
  unfold pixel_addr. replace (x - 16) with (x + (-2) * 8) by lia.
  rewrite Z.div_add, Z.mod_add by lia. lia.
Qed.

(** X6: on a constructed object whose size is within 16 x 8, writing a
    pixel does not change what any other pixel in range reads. *)
Theorem pixel_independence s x y x' y' (c : bool) :
  wf s -> (_size s).1 <= 16 -> (_size s).2 <= 8 ->
  valid_coord s x y -> valid_coord s x' y' -> (x', y') <> (x, y) ->
  fst (_pixel x' y' PyNone (snd (_pixel x y (PyBool c) s)))
  = fst (_pixel x' y' PyNone s).
Proof.
  intros Hwf Hw Hh Hv Hv' Hne.
  pose proof Hv as [Hx Hy]. pose proof Hv' as [Hx' Hy'].
  pose proof (pixel_addr_fits _ _ x y Hw Hh Hx Hy) as Ha.
  pose proof (pixel_addr_fits _ _ x' y' Hw Hh Hx' Hy') as Ha'.
  destruct (pixel_write_buffer x y (PyBool c) s Hwf Hv ltac:(lia) ltac:(discriminate))
    as (v & Hlk & Hb & Hbuf & Hsize).
  rewrite !pixel_read_fst by (unfold valid_coord; rewrite ?Hsize; exact Hv').
  rewrite Hbuf.
  destruct (decide (pixel_addr x' y' = pixel_addr x y)) as [Heq|Hneq].
  - rewrite Heq.
    rewrite (getitem_in _ _ (updated_byte (PyBool c) x v));
      [|lia|apply list_lookup_insert_eq; eapply lookup_lt_Some; exact Hlk].
    rewrite (getitem_in _ _ v) by (lia || exact Hlk).
    rewrite updated_byte_other; [reflexivity|].
    intros Hm. apply Hne.
    destruct (pixel_addr_bit_inj x y x' y') as [-> ->]; (lia || reflexivity || assumption).
  - rewrite getitem_insert_ne by lia. reflexivity.
Qed.

Lemma pixel_independence_witness :
  fst (_pixel 8 5 PyNone (snd (_pixel 11 5 (PyBool true) fresh_display)))
  = fst (_pixel 8 5 PyNone fresh_display).
Proof.
  apply pixel_independence; [wf_by_evaluation | by_evaluation..].
Defined.

(** X7: on a display wider than 16 columns the code folds the extra
    columns onto the next row: for a coordinate in range with [x >= 16]
    whose address is in the buffer, writing [(x, y)] makes [(x - 16, y + 1)]
    read the color written. *)
Theorem wide_columns_alias_next_row s x y (c : bool) :
  wf s -> valid_coord s x y -> 16 <= x -> valid_coord s (x - 16) (y + 1) ->
  pixel_addr x y <= 15 ->
  fst (_pixel (x - 16) (y + 1) PyNone (snd (_pixel x y (PyBool c) s)))
  = Ok (Some c).
Proof.
  intros Hwf Hv Hx Hv' Ha.
  pose proof Hv as [[Hx0 _] [Hy0 _]].
  pose proof (pixel_addr_nonneg x y Hx0 Hy0) as Hnn.
  destruct (pixel_addr_wide x y) as [Haddr Hbit].
  destruct (pixel_write_buffer x y (PyBool c) s Hwf Hv Ha ltac:(discriminate))
    as (v & Hlk & Hb & Hbuf & Hsize).
  rewrite pixel_read_fst by (unfold valid_coord; rewrite Hsize; exact Hv').
  rewrite Hbuf, Haddr, Hbit.
  rewrite (getitem_in _ _ (updated_byte (PyBool c) x v));
    [|lia|apply list_lookup_insert_eq; eapply lookup_lt_Some; exact Hlk].
  rewrite updated_byte_bit. reflexivity.
Qed.

Lemma wide_columns_alias_next_row_witness :
  fst (_pixel 0 1 PyNone (snd (_pixel 16 0 (PyBool true) wide_display)))
  = Ok (Some true).
Proof.
  apply (wide_columns_alias_next_row wide_display 16 0 true);
    [wf_by_evaluation | by_evaluation..].
Defined.

Lemma updated_byte_twice c x v :
  updated_byte c x (updated_byte c x v) = updated_byte c x v.
Proof.
  unfold updated_byte. destruct (truthy c).
  - rewrite <- Z.lor_assoc, Z.lor_diag. reflexivity.
  - rewrite <- Z.land_assoc, Z.land_diag. reflexivity.
Qed.

(** X8: on a constructed object, repeating a pixel write whose address is
    in the buffer changes nothing further: the buffer after the second
    write is the buffer after the first. *)
Theorem pixel_write_idempotent s x y (c : pyval) :
  wf s -> valid_coord s x y -> pixel_addr x y <= 15 ->
  let s1 := snd (_pixel x y c s) in
  _buffer (snd (_pixel x y c s1)) = _buffer s1.
Proof.
  intros Hwf Hv Ha. cbv zeta.
  assert (c = PyNone \/ c <> PyNone) as [->|Hc]
    by (destruct c; [left; reflexivity | right; discriminate..]).
  { rewrite !pixel_read_state. reflexivity. }
  destruct (pixel_write_buffer x y c s Hwf Hv Ha Hc) as (v & Hlk & Hb & Hbuf & Hsize).
  set (s1 := snd (_pixel x y c s)) in *.
  assert (wf s1) as Hwf1 by (apply wf_pixel; exact Hwf).
  assert (valid_coord s1 x y) as Hv1 by (unfold valid_coord; rewrite Hsize; exact Hv).
  destruct (pixel_write_buffer x y c s1 Hwf1 Hv1 Ha Hc) as (v1 & Hlk1 & _ & Hbuf1 & _).
  rewrite Hbuf1. apply list_insert_id.
  rewrite Hlk1. f_equal.
  rewrite Hbuf, list_lookup_insert_eq in Hlk1 by (eapply lookup_lt_Some; exact Hlk).
  injection Hlk1 as <-. symmetry. apply updated_byte_twice.
Qed.

Lemma pixel_write_idempotent_witness :
  _buffer (snd (_pixel 11 5 (PyBool true)
                  (snd (_pixel 11 5 (PyBool true) fresh_display))))
  = _buffer (snd (_pixel 11 5 (PyBool true) fresh_display)).
Proof.
  apply (pixel_write_idempotent fresh_display 11 5 (PyBool true));
    [wf_by_evaluation | by_evaluation..].
Defined.

(** ** Failures and synchronisation of pixel writes and fills *)

Lemma getitem_raises (b : list Z) i e :
  bytearray_getitem b i = Raise e -> e = IndexError.
Proof.
  unfold bytearray_getitem. destruct (py_index _ _); [destruct (b !! _)|];
    congruence.
Qed.

(** X9: on a constructed object a [_pixel] call that raises [ValueError]
    or [IndexError] leaves the object exactly as it was, bus log included;
    the only other exception is the bus's [OSError], which needs
    auto-write on, a write (not a read) at a coordinate in range and in the
    buffer, and a refused frame. *)
Theorem pixel_failure_atomic s x y c e :
  wf s -> fst (_pixel x y c s) = Raise e ->
  (e <> OSError -> snd (_pixel x y c s) = s) /\
  (e = OSError ->
   _auto_write s = true /\ next_ack s = false /\ c <> PyNone /\
   valid_coord s x y /\ pixel_addr x y <= 15).
Proof.
  intros Hwf.
  destruct (decide (0 <= x < (_size s).1)) as [Hx|Hx].
  2:{ rewrite pixel_x_out by exact Hx. cbn [fst snd]. intros [= <-].
      split; [reflexivity|discriminate]. }
  destruct (decide (0 <= y < (_size s).2)) as [Hy|Hy].
  2:{ rewrite pixel_y_out by assumption. cbn [fst snd]. intros [= <-].
      split; [reflexivity|discriminate]. }
  assert (valid_coord s x y) as Hv by (split; assumption).
  pose proof (pixel_addr_nonneg x y ltac:(lia) ltac:(lia)) as Hnn.
  assert (c = PyNone \/ c <> PyNone) as [->|Hc]
    by (destruct c; [left; reflexivity | right; discriminate..]).
  { rewrite pixel_read by exact Hv.
    destruct (bytearray_getitem _ _) as [v|e'] eqn:E; cbn [fst snd];
      [discriminate|].
    intros [= <-]. apply getitem_raises in E as ->.
    split; [reflexivity|discriminate]. }
  destruct (Z.le_gt_cases (pixel_addr x y) 15) as [Ha|Ha].
  - destruct (pixel_write_in x y c s Hwf Hv Ha Hc) as (v & _ & _ & Hrun).
    cbv zeta in Hrun. rewrite Hrun.
    destruct (_auto_write s); [|discriminate].
    destruct (next_ack s); cbn [fst]; [discriminate|].
    intros [= <-]. split; [intros H; contradiction H; reflexivity|].
    intros _. repeat split; (assumption || reflexivity || apply Hv).
  - rewrite pixel_write by assumption.
    destruct Hwf as (_ & Hlen & _).
    rewrite getitem_beyond by lia. cbn [fst snd]. intros [= <-].
    split; [reflexivity|discriminate].
Qed.

Lemma pixel_failure_atomic_witness :
  snd (_pixel 0 8 (PyBool true) oversized_display) = oversized_display /\
  next_ack flaky_display = false.
Proof.
  split.
  - refine (proj1 (pixel_failure_atomic oversized_display 0 8 (PyBool true)
                     IndexError _ _) _);
      [wf_by_evaluation | by_evaluation | discriminate].
  - refine (proj1 (proj2 (proj2 (pixel_failure_atomic flaky_display 11 5
                     (PyBool true) OSError _ _) eq_refl)));
      [wf_by_evaluation | by_evaluation].
Defined.

(** X10: on a constructed object with auto-write on, a pixel write at a
    coordinate in range whose address is in the buffer puts exactly one
    transaction on the bus: the 17-byte buffer as updated, byte 0 equal to
    0x00 and the written bit in place.  The write returns normally exactly
    when the device acknowledges that frame. *)
Theorem pixel_auto_write_sync s x y (c : bool) :
  wf s -> _auto_write s = true -> valid_coord s x y -> pixel_addr x y <= 15 ->
  let r := _pixel x y (PyBool c) s in
  fst r = (if next_ack s then Ok None else Raise OSError) /\
  bus_log (snd r) = bus_log s ++ [Txn (_buffer (snd r)) (next_ack s)] /\
  length (_buffer (snd r)) = 17%nat /\
  _buffer (snd r) !! 0%nat = Some 0 /\
  buffer_bit (snd r) (Z.to_nat (pixel_addr x y + 1)) (x mod 8) = Some c.
Proof.
  intros Hwf Haw Hv Ha. cbv zeta.
  pose proof (wf_pixel s x y (PyBool c) Hwf) as (_ & Hlen & H0 & _).
  destruct (pixel_write_in x y (PyBool c) s Hwf Hv Ha ltac:(discriminate))
    as (v & Hlk & Hb & Hrun).
  cbv zeta in Hrun. rewrite Haw in Hrun.
  split; [rewrite Hrun; reflexivity|].
  split; [rewrite Hrun; reflexivity|].
  split; [exact Hlen|]. split; [exact H0|].
  rewrite Hrun. unfold buffer_bit. cbn [snd]. rewrite show_run. cbn [snd].
  cbn [_buffer with_i2c_device with_buffer].
  rewrite list_lookup_insert_eq by (eapply lookup_lt_Some; exact Hlk).
  cbn. f_equal. apply (updated_byte_bit (PyBool c)).
Qed.

Lemma pixel_auto_write_sync_witness :
  let r := _pixel 11 5 (PyBool true) fresh_display in
  bus_log (snd r) = bus_log fresh_display ++ [Txn (_buffer (snd r)) true].
Proof.
  cbv zeta.
  refine (proj1 (proj2 (pixel_auto_write_sync fresh_display 11 5 true _ _ _ _)));
    [wf_by_evaluation | by_evaluation..].
Defined.

(** X11: on an object with its 17-byte buffer, [fill(color)] with
    auto-write on puts exactly one transaction on the bus, the prefix byte
    followed by 16 bytes 0xFF or 0x00, and returns normally exactly when it
    is acknowledged; with auto-write off it returns normally and puts
    nothing on the bus. *)
Theorem fill_sync s (color : pyval) :
  length (_buffer s) = 17%nat ->
  let r := fill color s in
  let frame := hd 0 (_buffer s) :: replicate 16 (if truthy color then 0xff else 0x00) in
  (_auto_write s = true ->
   fst r = (if next_ack s then Ok tt else Raise OSError) /\
   bus_log (snd r) = bus_log s ++ [Txn frame (next_ack s)]) /\
  (_auto_write s = false -> fst r = Ok tt /\ bus_log (snd r) = bus_log s).
Proof.
  intros Hlen. cbv zeta. rewrite fill_run by exact Hlen. cbv zeta.
  split; intros ->; split; reflexivity.
Qed.

Lemma fill_sync_witness :
  bus_log (snd (fill (PyBool true) fresh_display))
  = bus_log fresh_display ++ [Txn (0 :: replicate 16 0xff) true].
Proof.
  exact (proj2 (proj1 (fill_sync fresh_display (PyBool true) eq_refl) eq_refl)).
Defined.

(** ** Construction, end to end *)

(** X12: when the writes of the construction are acknowledged (four with
    auto-write on, three with it off), [__init__] returns an object whose
    buffer is 17 zero bytes, whose size and auto-write flag are the
    arguments, whose cached blink rate is 0 and brightness 15, and on which
    every coordinate in range with its address in the buffer reads off. *)
Theorem init_postcondition dev size (aw : bool) :
  acknowledged (if aw then 4 else 3)%nat (acks dev) = true ->
  let r := __init__ dev size aw in
  fst r = Ok tt /\
  _buffer (snd r) = replicate 17 0 /\
  _size (snd r) = size /\ _auto_write (snd r) = aw /\
  _blink_rate (snd r) = Some 0 /\ _brightness (snd r) = Some 15 /\
  forall x y, valid_coord (snd r) x y -> pixel_addr x y <= 15 ->
              _pixel x y PyNone (snd r) = (Ok (Some false), snd r).
Proof.
  intros Hack. cbv zeta. rewrite init_run by exact Hack. cbn [fst snd].
  repeat (split; [reflexivity|]).
  intros x y Hv Ha. pose proof Hv as [[Hx0 _] [Hy0 _]].
  pose proof (pixel_addr_nonneg x y Hx0 Hy0) as Hnn.
  rewrite pixel_read by exact Hv. cbn [_buffer].
  rewrite (getitem_in _ _ 0); [|lia|apply lookup_replicate_2; lia].
  rewrite Z.bits_0. reflexivity.
Qed.

Lemma init_postcondition_witness :
  let r := __init__ (I2CDevice_new default_address []) default_size true in
  fst r = Ok tt /\ _blink_rate (snd r) = Some 0 /\ _brightness (snd r) = Some 15.
Proof.
  cbv zeta.
  destruct (init_postcondition (I2CDevice_new default_address []) default_size
              true eq_refl) as (H1 & _ & _ & _ & H2 & H3 & _).
  split; [exact H1|]. split; [exact H2 | exact H3].
Defined.

(** X13: when one of those writes is refused, [__init__] raises [OSError]
    and stops there: the bus has seen the planned payloads up to and
    including the refused one, each earlier one acknowledged, and nothing
    after it. *)
Theorem init_stops_at_refused_write dev size (aw : bool) :
  acknowledged (if aw then 4 else 3)%nat (acks dev) = false ->
  let r := __init__ dev size aw in
  let k := refused_at (acks dev) in
  fst r = Raise OSError /\
  bus_log (snd r)
  = log dev ++ zip_with Txn (take (S k) (init_frames aw))
                            (replicate k true ++ [false]).
Proof.
  destruct dev as [a orc l]. unfold acknowledged. cbn [acks log].
  destruct aw.
  - destruct orc as [|[] [|[] [|[] [|[] orc]]]]; cbn; intros H;
      try discriminate H; cbv -[app]; rewrite <- ?app_assoc; split; reflexivity.
  - destruct orc as [|[] [|[] [|[] orc]]]; cbn; intros H;
      try discriminate H; cbv -[app]; rewrite <- ?app_assoc; split; reflexivity.
Qed.

Lemma init_stops_at_refused_write_witness :
  let r := __init__ (I2CDevice_new default_address [true; false]) default_size true in
  fst r = Raise OSError /\
  bus_log (snd r) = [Txn (replicate 17 0) true; Txn [0x21] false].
Proof.
  cbv zeta.
  exact (init_stops_at_refused_write (I2CDevice_new default_address [true; false])
           default_size true eq_refl).
Defined.

(** ** What the setters leave alone *)

Lemma write_cmd_frame byte s :
  let s' := snd (_write_cmd byte s) in
  _buffer s' = _buffer s /\ _size s' = _size s /\ _auto_write s' = _auto_write s /\
  _blink_rate s' = _blink_rate s /\ _brightness s' = _brightness s.
Proof.
  cbv zeta. unfold _write_cmd, mbind, M_bind, get, lift, modify.
  destruct (bytearray_setitem _ _ _); cbn; repeat split.
Qed.

(** X14: whatever their argument and whatever the bus answers, the
    blink-rate and brightness setters leave the frame buffer, the size and
    the auto-write flag as they were, and neither changes the other's
    cached value. *)
Theorem setters_leave_display_alone s :
  (forall rate,
     let s' := snd (blink_rate_set rate s) in
     _buffer s' = _buffer s /\ _size s' = _size s /\
     _auto_write s' = _auto_write s /\ _brightness s' = _brightness s) /\
  (forall level,
     let s' := snd (brightness_set level s) in
     _buffer s' = _buffer s /\ _size s' = _size s /\
     _auto_write s' = _auto_write s /\ _blink_rate s' = _blink_rate s).
Proof.
  split.
  - intros rate. cbv zeta. unfold blink_rate_set.
    destruct (negb _); [repeat split|].
    cbv zeta. unfold mbind at 1, M_bind at 1, modify at 1.
    destruct (write_cmd_frame
                (Z.lor (Z.lor _HT16K33_BLINK_CMD _HT16K33_BLINK_DISPLAYON)
                       (Z.shiftl (Z.land rate 3) 1))
                (with_blink_rate (Some (Z.land rate 3)) s))
      as (Hb & Hs & Ha & _ & Hl).
    repeat split; assumption.
  - intros level. cbv zeta. unfold brightness_set.
    destruct (negb _); [repeat split|].
    cbv zeta. unfold mbind at 1, M_bind at 1, modify at 1.
    destruct (write_cmd_frame
                (Z.lor _HT16K33_CMD_BRIGHTNESS (Z.land level 15))
                (with_brightness (Some (Z.land level 15)) s))
      as (Hb & Hs & Ha & Hr & _).
    repeat split; assumption.
Qed.

(** ** Invariants along any run *)

Lemma init_ok_acknowledged dev size (aw : bool) s :
  __init__ dev size aw = (Ok tt, s) ->
  acknowledged (if aw then 4 else 3)%nat (acks dev) = true.
Proof.
  destruct dev as [a orc l]. unfold acknowledged. cbn [acks].
  destruct aw.
  - destruct orc as [|[] [|[] [|[] [|[] orc]]]]; intros H;
      cbv -[app] in H; (reflexivity || discriminate H).
  - destruct orc as [|[] [|[] [|[] orc]]]; intros H;
      cbv -[app] in H; (reflexivity || discriminate H).
Qed.

Lemma wire_frame (b : list Z) :
  length b = 17%nat -> b !! 0%nat = Some 0 -> Forall (fun v => 0 <= v < 256) b ->
  wire_payload b.
Proof. intros. left. repeat split; assumption. Qed.

Lemma traffic_ok_snoc l t :
  traffic_ok l -> wire_payload (payload t) -> traffic_ok (l ++ [t]).
Proof.
  intros Hl Ht. unfold traffic_ok. apply Forall_app. split; [exact Hl|].
  constructor; [exact Ht|constructor].
Qed.

Lemma init_traffic addr outcomes size aw s :
  __init__ (I2CDevice_new addr outcomes) size aw = (Ok tt, s) ->
  traffic_ok (bus_log s).
Proof.
  intros H. pose proof (init_ok_acknowledged _ _ _ _ H) as Hack.
  rewrite init_run in H by exact Hack. injection H as <-.
  unfold bus_log, traffic_ok. cbn [i2c_device log I2CDevice_new app].
  assert (wire_payload [0x21]) as W1 by (right; left; reflexivity).
  assert (wire_payload [0x81]) as W2
    by (right; right; left; exists 0; split; [lia|reflexivity]).
  assert (wire_payload [0xEF]) as W3
    by (right; right; right; exists 15; split; [lia|reflexivity]).
  assert (wire_payload (replicate 17 0)) as W0
    by (apply wire_frame; [reflexivity..|repeat constructor; lia]).
  destruct aw; cbn [app]; repeat (apply Forall_cons; [assumption|]); apply Forall_nil.
Qed.

Lemma blink_rate_set_log rate s :
  length (_temp s) = 1%nat -> 0 <= rate <= 3 ->
  bus_log (snd (blink_rate_set rate s))
  = bus_log s ++ [Txn [Z.lor (Z.lor 0x80 0x01) (Z.shiftl rate 1)] (next_ack s)].
Proof.
  intros Ht Hr. rewrite blink_rate_set_run by exact Hr.
  rewrite write_cmd_run by (exact Ht || apply (blink_byte rate Hr)).
  reflexivity.
Qed.

Lemma brightness_set_log level s :
  length (_temp s) = 1%nat -> 0 <= level <= 15 ->
  bus_log (snd (brightness_set level s))
  = bus_log s ++ [Txn [Z.lor 0xE0 level] (next_ack s)].
Proof.
  intros Ht Hr. rewrite brightness_set_run by exact Hr.
  rewrite write_cmd_run by (exact Ht || apply (brightness_byte level Hr)).
  reflexivity.
Qed.

(** One operation adds at most one payload, a frame or a command byte. *)
Lemma traffic_step o s :
  wf s -> in_contract o -> traffic_ok (bus_log s) ->
  traffic_ok (bus_log (snd (run_op o s))).
Proof.
  intros Hwf Hc Hl.
  pose proof (wf_run_op o s Hwf Hc) as (_ & Hlen' & H0' & Hb').
  pose proof Hwf as (Ht & Hlen & _).
  destruct (is_setter o) eqn:Hset.
  - destruct o as [a|rate|level|k|k v| |c|i v|i]; try discriminate Hset;
      cbn [run_op]; unfold outcome; cbn [snd].
    + destruct (decide (0 <= rate <= 3)) as [Hr|Hr].
      * rewrite blink_rate_set_log by assumption.
        apply traffic_ok_snoc; [exact Hl|]. cbn [payload].
        right; right; left. exists rate. split; [exact Hr|reflexivity].
      * rewrite blink_rate_set_reject by exact Hr. exact Hl.
    + destruct (decide (0 <= level <= 15)) as [Hr|Hr].
      * rewrite brightness_set_log by assumption.
        apply traffic_ok_snoc; [exact Hl|]. cbn [payload].
        right; right; right. exists level. split; [exact Hr|reflexivity].
      * rewrite brightness_set_reject by exact Hr. exact Hl.
  - destruct (run_op_quiet o s (conj Ht Hlen) Hset) as (_ & _ & _ & _ & [->|[a ->]]);
      [exact Hl|].
    apply traffic_ok_snoc; [exact Hl|]. cbn [payload].
    apply wire_frame; assumption.
Qed.

Lemma run_ops_invariant ops s :
  wf s -> traffic_ok (bus_log s) -> Forall in_contract ops ->
  wf (run_ops ops s) /\ traffic_ok (bus_log (run_ops ops s)).
Proof.
  intros Hwf Hl Hops. revert s Hwf Hl.
  induction Hops as [|o ops Ho _ IH]; intros s Hwf Hl; [split; assumption|].
  cbn [run_ops fold_left]. apply IH.
  - apply wf_run_op; assumption.
  - apply traffic_step; assumption.
Qed.

Lemma run_ops_wf ops s :
  wf s -> Forall in_contract ops -> wf (run_ops ops s).
Proof.
  intros Hwf Hops. revert s Hwf.
  induction Hops as [|o ops Ho _ IH]; intros s Hwf; [exact Hwf|].
  cbn [run_ops fold_left]. apply IH. apply wf_run_op; assumption.
Qed.

(** X15: every payload the driver puts on a fresh bus, during a
    construction that returns and during any operations that follow (the
    low-level setter kept to data bytes 0..15), is well formed: a 17-byte
    frame of bytes that opens with 0x00, the oscillator byte 0x21, a blink
    command [0x80 | 0x01 | rate << 1] with rate in 0..3, or a brightness
    command [0xE0 | level] with level in 0..15. *)
Theorem bus_traffic_is_well_formed addr outcomes size aw s ops :
  __init__ (I2CDevice_new addr outcomes) size aw = (Ok tt, s) ->
  Forall in_contract ops ->
  traffic_ok (bus_log (run_ops ops s)).
Proof.
  intros Hinit Hops.
  apply run_ops_invariant; [eapply init_wf; exact Hinit| |exact Hops].
  eapply init_traffic. exact Hinit.
Qed.

Lemma bus_traffic_is_well_formed_witness :
  traffic_ok (bus_log (run_ops
    [Fill (PyBool true); Setitem (3, 4) (PyBool false); Set_blink_rate 2;
     Set_buffer 15 0x81; Set_brightness 99; Show] fresh_display)).
Proof.
  apply (bus_traffic_is_well_formed default_address [] default_size true).
  - exact fresh_display_init.
  - repeat constructor; cbn; lia.
Defined.

(** X16: the object keeps its representation invariant along every run:
    after a construction that returns and any operations that follow (the
    low-level setter kept to data bytes 0..15), the scratch bytearray has
    one byte, the buffer has 17 bytes each in 0..255, and buffer byte 0 is
    0x00. *)
Theorem invariant_along_runs dev size aw s ops :
  __init__ dev size aw = (Ok tt, s) ->
  Forall in_contract ops ->
  wf (run_ops ops s).
Proof.
  intros Hinit Hops. apply run_ops_wf; [|exact Hops].
  eapply init_wf. exact Hinit.
Qed.

Lemma invariant_along_runs_witness :
  wf (run_ops
    [Fill (PyBool true); Setitem (3, 4) (PyBool false); Set_blink_rate 2;
     Set_buffer 15 0x81; Getitem (99, 0); Show] flaky_display).
Proof.
  apply (invariant_along_runs
           (I2CDevice_new default_address [true; true; true; true; false])
           default_size true).
  - exact flaky_display_init.
  - repeat constructor; cbn; lia.
Defined.
